(** * legends.py: the glyph-width estimator and the column aligner

    A shallow embedding of [__LaTeX_str_length] and [__shifting] of
    [src/legends.py].

    - A Python [str] is a [string]; a character is a code point below 256,
      which covers every character the code inspects and the [±] (code
      point 177) it writes.
    - A Python value that can sit in a cell is a [pyval].
    - Numbers (int, float, np.float64) are kept abstract: the host's
      [round], [str] and numpy's [np.round(...).astype(str)] are the
      operations of a [NumericStack].  [IntStack] is the instance for
      Python ints.
    - A call either returns or raises: [pyres].
    - [__shifting] overwrites the lists it is given; the model threads the
      five columns through the call and hands them back with the result. *)

From Stdlib Require Import ZArith Lia Ascii String List Bool DecimalString.
From stdpp Require Import base list functions strings.

Local Open Scope Z_scope.

Local Abbreviation chars := String.list_ascii_of_string.

(** ** Exceptions and results *)

(** Which [raise] (or which runtime check) produced a [TypeError]. *)
Inductive type_error :=
| ValueKind                      (* legends.py:40, value must be str or None *)
| OneType (message : string)     (* legends.py:127, with its message *)
| Interpreter.                   (* raised by an operator, round, numpy or a subscript *)

Inductive exn :=
| TypeError (origin : type_error)
| ValueError                     (* numpy, on an array of size 0 *)
| IndexError                     (* list index out of range *)
| AttributeError.                (* .replace on something that is not a str *)

Inductive pyres (A : Type) :=
| Ok (a : A)
| Raise (e : exn).
Arguments Ok {A} a.
Arguments Raise {A} e.

#[global] Instance pyres_ret : MRet pyres := fun _ a => Ok a.
#[global] Instance pyres_bind : MBind pyres := fun _ _ f r =>
  match r with
  | Ok a => f a
  | Raise e => Raise e
  end.

Definition returns {A} (r : pyres A) : bool :=
  match r with Ok _ => true | Raise _ => false end.

(** ** Python strings *)

Module Str.

Definition len (s : string) : Z := Z.of_nat (String.length s).

(** [c * n] for a one-character string [c]: empty when [n <= 0]. *)
Definition mul (c : ascii) (n : Z) : string :=
  String.string_of_list_ascii (replicate (Z.to_nat n) c).

(** [s.replace(old, new)] for a one-character [old]. *)
Fixpoint replace (old : ascii) (new : string) (s : string) : string :=
  match s with
  | EmptyString => EmptyString
  | String c t =>
      if Ascii.eqb c old then new +:+ replace old new t
      else String c (replace old new t)
  end.

(** [s.split(sep)] for a one-character [sep]: never the empty list. *)
Fixpoint split (sep : ascii) (s : string) : list string :=
  match s with
  | EmptyString => [EmptyString]
  | String c t =>
      if Ascii.eqb c sep then EmptyString :: split sep t
      else match split sep t with
           | seg :: rest => String c seg :: rest
           | [] => [String c EmptyString]
           end
  end.

(** [sep.join(l)] *)
Definition join (sep : string) (l : list string) : string :=
  String.concat sep l.

(** [s.replace(' ', '') == ''] *)
Definition is_blank (s : string) : bool :=
  String.eqb (replace " " "" s) "".

Definition count (c : ascii) (s : string) : nat :=
  length (filter (fun d => d = c) (String.list_ascii_of_string s)).

End Str.

(** ** The two regular expressions of the estimator *)

Module Re.

(** The class [[\{\} ]]. *)
Definition brace_or_space (c : ascii) : bool :=
  Ascii.eqb c "{" || Ascii.eqb c "}" || Ascii.eqb c " ".

(** The class [[a-zA-Z]]. *)
Definition letter (c : ascii) : bool :=
  let n := N_of_ascii c in
  ((97 <=? n) && (n <=? 122) || (65 <=? n) && (n <=? 90))%N.

(** [re.sub(r'[...]', repl, s)] for a one-character class. *)
Fixpoint sub_class (cls : ascii -> bool) (repl : string) (s : string) : string :=
  match s with
  | EmptyString => EmptyString
  | String c t =>
      if cls c then repl +:+ sub_class cls repl t
      else String c (sub_class cls repl t)
  end.

(** [re.sub(r'\\([a-zA-Z]+)', repl, s)]: scanning from the left, a
    backslash followed by a letter starts a match, which takes every
    letter that follows; anything else is copied.  [in_match] says that
    the scan is inside the letters of a match already replaced. *)
Fixpoint sub_command_from (in_match : bool) (repl : string) (s : string) : string :=
  match s with
  | EmptyString => EmptyString
  | String c t =>
      if in_match && letter c then sub_command_from true repl t
      else if Ascii.eqb c "\" then
        match t with
        | String d _ =>
            if letter d then repl +:+ sub_command_from true repl t
            else String c (sub_command_from false repl t)
        | EmptyString => String c EmptyString
        end
      else String c (sub_command_from false repl t)
  end.

Definition sub_command (repl : string) (s : string) : string :=
  sub_command_from false repl s.

End Re.

(** ** The estimator, as the specification words it *)

Module Spec.

(** "remove brace and space characters entirely" *)
Definition remove_braces_and_spaces (l : list ascii) : list ascii :=
  filter (fun c : ascii => c ≠ "{" ∧ c ≠ "}" ∧ c ≠ " ")%char l.

(** "replace superscript/subscript control characters with a space" *)
Definition scripts_to_space (l : list ascii) : list ascii :=
  (fun c : ascii => if bool_decide (c = "^" ∨ c = "_")%char then " "%char else c) <$> l.

Fixpoint skip_letters (l : list ascii) : list ascii :=
  match l with
  | c :: t => if Re.letter c then skip_letters t else l
  | [] => []
  end.

Definition placeholder : ascii := "_".

Definition starts_command (l : list ascii) : bool :=
  match l with
  | c :: d :: _ => bool_decide (c = "\"%char) && Re.letter d
  | _ => false
  end.

(** "collapse any backslash-prefixed alphabetic command name (one or more
    letters) to a single placeholder character"; [fuel] bounds the
    number of characters left. *)
Fixpoint collapse_commands (fuel : nat) (l : list ascii) : list ascii :=
  match fuel, l with
  | S fuel, c :: t =>
      if starts_command l
      then placeholder :: collapse_commands fuel (skip_letters t)
      else c :: collapse_commands fuel t
  | _, _ => l
  end.

(** "finally strip remaining spaces" *)
Definition strip_spaces (l : list ascii) : list ascii :=
  filter (fun c : ascii => c ≠ " "%char) l.

Definition normalize (seg : string) : list ascii :=
  let l := remove_braces_and_spaces (String.list_ascii_of_string seg) in
  let l := scripts_to_space l in
  let l := collapse_commands (length l) l in
  strip_spaces l.

(** Segment 0 is plain, segment 1 is markup, segment 2 is plain, ... *)
Definition contribution (i : nat) (seg : string) : Z :=
  if Nat.even i then Z.of_nat (String.length seg)
  else Z.of_nat (length (normalize seg)).

Definition sum (l : list Z) : Z := foldr Z.add 0 l.

(** "Total width = sum of all segment contributions" *)
Definition estimate (text : string) : Z :=
  sum (imap contribution (Str.split "$" text)).

End Spec.

(** ** The numeric stack *)

(** What the aligner asks of numbers.  A [num] is an int, a float or an
    np.float64. *)
Class NumericStack := {
  num : Type;
  (** [bool(x)]: false exactly on zero *)
  num_truthy : num -> bool;
  (** [str(round(x, ROUNDING_COEF))] *)
  py_round_str : num -> Z -> string;
  (** [np.round(xs, ROUNDING_COEF).astype(str)], as a list *)
  np_round_str : list num -> Z -> list string;
}.

(** Python's [round(n, k)] on an int: [n] itself for [k >= 0], otherwise
    the multiple of [10^(-k)] nearest to [n], ties to the even multiple. *)
Definition round_int (n k : Z) : Z :=
  if 0 <=? k then n
  else
    let p := 10 ^ (- k) in
    let q := n / p in
    let r := n mod p in
    if 2 * r <? p then q * p
    else if p <? 2 * r then (q + 1) * p
    else if Z.even q then q * p else (q + 1) * p.

(** [str(n)] for an int. *)
Definition str_int (n : Z) : string := NilZero.string_of_int (Z.to_int n).

(** Python ints, as long as numpy keeps them in an int64 array and its
    double arithmetic on them is exact (magnitude below 2^53): [np.round]
    then agrees with [round]. *)
#[global] Instance IntStack : NumericStack := {|
  num := Z;
  num_truthy n := negb (n =? 0);
  py_round_str n k := str_int (round_int n k);
  np_round_str ns k := (fun n => str_int (round_int n k)) <$> ns;
|}.

Section Legends.

Context {stack : NumericStack}.

(** ** Values *)

(** What a cell can hold.  [VObj b] is any other object, of truth value [b]. *)
Inductive pyval :=
| VNone
| VStr (s : string)
| VNum (x : num)
| VObj (b : bool).

(** [isinstance(v, (str, type(None)))] *)
Definition is_str_or_none (v : pyval) : bool :=
  match v with VNone | VStr _ => true | _ => false end.

(** [isinstance(v, (int, float, np.float64, type(None)))] *)
Definition is_num_or_none (v : pyval) : bool :=
  match v with VNone | VNum _ => true | _ => false end.

(** [bool(v)] *)
Definition truthy (v : pyval) : bool :=
  match v with
  | VNone => false
  | VStr s => negb (String.eqb s "")
  | VNum x => num_truthy x
  | VObj b => b
  end.

(** ** __LaTeX_str_length *)

(** Lines 47-50: what the loop does to one LaTeX inclusion. *)
Definition inclusion (seg : string) : string :=
  let seg := Re.sub_class Re.brace_or_space "" seg in
  let seg := Str.replace "_" " " (Str.replace "^" " " seg) in
  let seg := Re.sub_command "_" seg in
  Str.replace " " "" seg.

(** Lines 46-50: the body of the loop, at index [i]. *)
Definition loop_body (value : list string) (i : nat) : list string :=
  if negb (i mod 2 =? 0)%nat then alter inclusion i value else value.

Definition LaTeX_str_length (value : pyval) : pyres Z :=
  match value with
  | VNone => Ok 0
  | VStr s =>
      let value := Str.split "$" s in
      let value := foldl loop_body value (seq 0 (length value)) in
      Ok (Str.len (Str.join "" value))
  | _ => Raise (TypeError ValueKind)
  end.

(** ** __shifting *)

(** The five parameters, in the order of the function's locals: the keys of
    the dicts [Max_Length] and [Parts]. *)
Inductive key := names | signs | values | errors | units.

#[global] Instance key_eq_dec : EqDecision key.
Proof. solve_decision. Defined.

Definition keys : list key := [names; signs; values; errors; units].

Definition key_name (k : key) : string :=
  match k with
  | names => "names"
  | signs => "signs"
  | values => "values"
  | errors => "errors"
  | units => "units"
  end.

(** The argument bound to each parameter: [None] or a list object.  The
    five non-None arguments are five separate list objects. *)
Definition columns := key -> option (list pyval).

(** Line 127: the message of the [TypeError]. *)
Definition one_type_message (k : key) : string :=
  "TypeError: ```" +:+ key_name k +:+ "``` argument must contain elements of one type".

(** [np.vectorize(f)(a)]: refuses an array of size 0. *)
Definition np_vectorize (f : pyval -> pyres Z) (a : list pyval) : pyres (list Z) :=
  match a with
  | [] => Raise ValueError
  | _ => mapM f a
  end.

(** [a.max()]: refuses an array of size 0. *)
Definition np_amax (a : list Z) : pyres Z :=
  match a with
  | [] => Raise ValueError
  | x :: t => Ok (foldl Z.max x t)
  end.

Definition as_num (v : pyval) : option num :=
  match v with VNum x => Some x | _ => None end.

(** [np.round(a, k).astype(str)]: a list holding [None] becomes an object
    array, on which the arithmetic of [np.round] raises [TypeError]. *)
Definition np_round_astype_str (a : list pyval) (k : Z) : pyres (list string) :=
  match mapM as_num a with
  | Some xs => Ok (np_round_str xs k)
  | None => Raise (TypeError Interpreter)
  end.

Definition LaTeX_Str_Length (a : list pyval) : pyres (list Z) :=
  np_vectorize LaTeX_str_length a.

(** Lines 115-127: one turn of the first loop, on the object [col] bound
    to [k]; gives the new [Row_Count] and [Max_Length[k]]. *)
Definition measure_column (k : key) (col : option (list pyval))
    (ROUNDING_COEF : Z) (Row_Count : nat) : pyres (nat * Z) :=
  match col with
  | Some l =>
      if forallb is_str_or_none l then
        w ← LaTeX_Str_Length l ≫= np_amax;
        mret (Nat.max Row_Count (length l), w)
      else if forallb is_num_or_none l then
        a ← np_round_astype_str l ROUNDING_COEF;
        w ← LaTeX_Str_Length (VStr <$> a) ≫= np_amax;
        mret (Nat.max Row_Count (length l), w)
      else if bool_decide (l = []) then mret (Row_Count, 0)
      else Raise (TypeError (OneType (one_type_message k)))
  | None => mret (Row_Count, 0)
  end.

(** Lines 111-127. *)
Fixpoint measure_loop (ks : list key) (c : columns) (ROUNDING_COEF : Z)
    (Row_Count : nat) (Max_Length : key -> Z) : pyres (nat * (key -> Z)) :=
  match ks with
  | [] => Ok (Row_Count, Max_Length)
  | k :: ks =>
      '(Row_Count, w) ← measure_column k (c k) ROUNDING_COEF Row_Count;
      measure_loop ks c ROUNDING_COEF Row_Count (<[k := w]> Max_Length)
  end.

Definition measure (c : columns) (ROUNDING_COEF : Z) : pyres (nat * (key -> Z)) :=
  measure_loop keys c ROUNDING_COEF 0%nat (fun _ => 0).

(** A [str] operand of [+]. *)
Definition as_str (v : pyval) : pyres string :=
  match v with VStr s => Ok s | _ => Raise (TypeError Interpreter) end.

(** [str(round(v, ROUNDING_COEF))] *)
Definition str_round (v : pyval) (ROUNDING_COEF : Z) : pyres string :=
  match v with
  | VNum x => Ok (py_round_str x ROUNDING_COEF)
  | _ => Raise (TypeError Interpreter)
  end.

(** Lines 134-145: the new value of [Parts[k][row]], from the old one. *)
Definition shift_cell (k : key) (Max_Length : Z) (ROUNDING_COEF : Z)
    (cell : pyval) : pyres string :=
  match k with
  | names =>
      if truthy cell then
        n ← LaTeX_str_length cell;
        s ← as_str cell;
        mret (s +:+ Str.mul " " (Max_Length - n))
      else mret (Str.mul " " Max_Length)
  | signs =>
      if truthy cell then
        s ← as_str cell;
        n ← LaTeX_str_length cell;
        mret ("[" +:+ s +:+ "]" +:+ Str.mul " " (Max_Length - n))
      else mret (Str.mul " " (Max_Length + 2))
  | values | errors =>
      if truthy cell then
        t ← str_round cell ROUNDING_COEF;
        n ← LaTeX_str_length (VStr t);
        mret (Str.mul " " (Max_Length - n) +:+ t)
      else mret (Str.mul " " Max_Length)
  | units =>
      if truthy cell then
        n ← LaTeX_str_length cell;
        s ← as_str cell;
        mret (Str.mul " " (Max_Length - n) +:+ s)
      else mret (Str.mul " " Max_Length)
  end.

(** Lines 133-145: the loop over the rows of one list, which it overwrites
    cell by cell; an exception leaves the cells written so far. *)
Fixpoint shift_rows (k : key) (Max_Length ROUNDING_COEF : Z) (rows : list nat)
    (col : list pyval) : list pyval * pyres unit :=
  match rows with
  | [] => (col, Ok tt)
  | row :: rows =>
      match col !! row with
      | None => (col, Raise IndexError)
      | Some cell =>
          match shift_cell k Max_Length ROUNDING_COEF cell with
          | Ok s => shift_rows k Max_Length ROUNDING_COEF rows (<[row := VStr s]> col)
          | Raise e => (col, Raise e)
          end
      end
  end.

(** Lines 131-145. *)
Fixpoint shift_loop (ks : list key) (Row_Count : nat) (Max_Length : key -> Z)
    (ROUNDING_COEF : Z) (Parts : columns) : columns * pyres unit :=
  match ks with
  | [] => (Parts, Ok tt)
  | k :: ks =>
      match Parts k with
      | Some ((_ :: _) as col) =>
          let '(col, r) :=
            shift_rows k (Max_Length k) ROUNDING_COEF (seq 0 Row_Count) col in
          let Parts := <[k := Some col]> Parts in
          match r with
          | Ok _ => shift_loop ks Row_Count Max_Length ROUNDING_COEF Parts
          | Raise e => (Parts, Raise e)
          end
      | _ => shift_loop ks Row_Count Max_Length ROUNDING_COEF Parts
      end
  end.

(** [Parts[k][row]], then a [str] method on it. *)
Definition part (Parts : columns) (k : key) (row : nat) : pyres string :=
  match Parts k with
  | None => Raise (TypeError Interpreter)
  | Some col =>
      match col !! row with
      | None => Raise IndexError
      | Some (VStr s) => Ok s
      | Some _ => Raise AttributeError
      end
  end.

Definition plus_minus : string := String (ascii_of_N 177) "".

(** Lines 150-163: [Result[row]]. *)
Definition concat_row (Parts : columns) (row : nat) : pyres string :=
  n ← part Parts names row;
  let Result := "" +:+ (if Str.is_blank n then n +:+ Str.mul " " 2 else n +:+ ": ") in
  y ← part Parts signs row;
  let Result := Result +:+ (y +:+ " =") in
  v ← part Parts values row;
  let Result := Result +:+ (" " +:+ v +:+ " " +:+ plus_minus +:+ " ") in
  e ← part Parts errors row;
  let Result := Result +:+ (" " +:+ e +:+ " ") in
  u ← part Parts units row;
  mret (Result +:+ (" " +:+ u)).

Definition newline : string := String "010" "".

(** Lines 148-165. *)
Definition concatenate (Row_Count : nat) (Parts : columns) : pyres string :=
  Result ← mapM (concat_row Parts) (seq 0 Row_Count);
  mret (Str.join newline Result).

(** The call: the five lists as it leaves them, and what it returns or raises. *)
Definition shifting (c : columns) (ROUNDING_COEF : Z) : columns * pyres string :=
  match measure c ROUNDING_COEF with
  | Raise e => (c, Raise e)
  | Ok (Row_Count, Max_Length) =>
      let '(Parts, r) := shift_loop keys Row_Count Max_Length ROUNDING_COEF c in
      match r with
      | Raise e => (Parts, Raise e)
      | Ok _ => (Parts, concatenate Row_Count Parts)
      end
  end.

(** The arguments of a call. *)
Definition call (n y v e u : option (list pyval)) : columns :=
  fun k =>
    match k with
    | names => n
    | signs => y
    | values => v
    | errors => e
    | units => u
    end.

(** ** Segments *)

(** The segment at index [i] once the loop has done the indices below [n]. *)
Definition after (n i : nat) (seg : string) : string :=
  if (i <? n)%nat && Nat.odd i then inclusion seg else seg.

(** The width of a list of segments that alternates between plain text
    and LaTeX inclusions; [markup] says what the first one is. *)
Fixpoint alt_width (markup : bool) (segs : list string) : Z :=
  match segs with
  | [] => 0
  | seg :: segs =>
      Str.len (if markup then inclusion seg else seg) + alt_width (negb markup) segs
  end.

(** The segments of [a +:+ b] from those of [a] and of [b]: the last of
    [a] and the first of [b] run together. *)
Fixpoint app_segs (l1 l2 : list string) : list string :=
  match l1 with
  | [] => l2
  | [x] => match l2 with
           | [] => [x]
           | h :: t => (x +:+ h) :: t
           end
  | x :: l1 => x :: app_segs l1 l2
  end.

(** An even number of [$]: the text ends outside a LaTeX inclusion. *)
Definition even_dollars (s : string) : bool := Nat.even (Str.count "$" s).

(** The estimate of a string. *)
Definition width (s : string) : Z := alt_width false (Str.split "$" s).

(** ** Rows *)

Definition col_len (col : option (list pyval)) : nat :=
  match col with Some l => length l | None => 0%nat end.

(** The bracket pair that line 138 puts around a sign. *)
Definition brackets (k : key) : Z :=
  match k with signs => 2 | _ => 0 end.

(** Lines 150-151: what follows the name. *)
Definition name_separator (n : string) : string :=
  if Str.is_blank n then Str.mul " " 2 else ": ".

(** Lines 150-163: a row, from its five padded cells. *)
Definition line (n y v e u : string) : string :=
  "" +:+ (n +:+ name_separator n) +:+ (y +:+ " =")
     +:+ (" " +:+ v +:+ " " +:+ plus_minus +:+ " ")
     +:+ (" " +:+ e +:+ " ") +:+ (" " +:+ u).

(** The text of a row that stands before each separator. *)
Definition before_colon (n : string) : string := n.
Definition before_equals (n y : string) : string :=
  n +:+ name_separator n +:+ y.
Definition before_plus_minus (n y v : string) : string :=
  n +:+ name_separator n +:+ y +:+ " =" +:+ " " +:+ v.

Definition is_str (v : pyval) : bool :=
  match v with VStr _ => true | _ => false end.

Definition is_num (v : pyval) : bool :=
  match v with VNum _ => true | _ => false end.

(** A column that holds both a string and a number. *)
Definition mixed (l : list pyval) : bool :=
  existsb is_str l && existsb is_num l.

(** The keys that the loops reach before [k]. *)
Definition earlier (k : key) : list key :=
  match k with
  | names => []
  | signs => [names]
  | values => [names; signs]
  | errors => [names; signs; values]
  | units => [names; signs; values; errors]
  end.

(** The cells of a column; none when the parameter is bound to [None]. *)
Definition cells (col : option (list pyval)) : list pyval :=
  match col with Some l => l | None => [] end.

(** A cell that is not a string with an odd number of [$]. *)
Definition paired (v : pyval) : bool :=
  match v with VStr s => even_dollars s | _ => true end.

(** The strings of the names and signs columns end outside a LaTeX
    inclusion. *)
Definition dollars_paired (c : columns) : bool :=
  forallb paired (cells (c names)) && forallb paired (cells (c signs)).

(** A cell that is not a number whose rounded text is wider than [M]. *)
Definition fits (ROUNDING_COEF M : Z) (v : pyval) : bool :=
  match v with
  | VNum x =>
      match LaTeX_str_length (VStr (py_round_str x ROUNDING_COEF)) with
      | Ok n => n <=? M
      | Raise _ => false
      end
  | _ => true
  end.

(** The rounded text of each number of the values and errors columns is
    no wider than the [Max_Length] of its column. *)
Definition numbers_fit (c : columns) (ROUNDING_COEF : Z) (Max_Length : key -> Z) : bool :=
  forallb (fits ROUNDING_COEF (Max_Length values)) (cells (c values))
  && forallb (fits ROUNDING_COEF (Max_Length errors)) (cells (c errors)).

(** A numeric stack in which numpy rounds and prints a number as Python
    does. *)
Definition rounds_alike : Prop :=
  forall xs ROUNDING_COEF,
    np_round_str xs ROUNDING_COEF = (fun x => py_round_str x ROUNDING_COEF) <$> xs.

(** The first loop accepts the object bound to [k]. *)
Definition measured (k : key) (col : option (list pyval)) (ROUNDING_COEF : Z) : bool :=
  returns (measure_column k col ROUNDING_COEF 0).

(** The first loop accepts the objects bound to the parameters before [k]. *)
Definition earlier_measured (c : columns) (ROUNDING_COEF : Z) (k : key) : bool :=
  forallb (fun k' => measured k' (c k') ROUNDING_COEF) (earlier k).

(** [Row_Count] and [Max_Length] after the first loop of a call. *)
Definition Row_Count_of (c : columns) (ROUNDING_COEF : Z) : nat :=
  match measure c ROUNDING_COEF with Ok (Row_Count, _) => Row_Count | Raise _ => 0%nat end.

Definition Max_Length_of (c : columns) (ROUNDING_COEF : Z) : key -> Z :=
  match measure c ROUNDING_COEF with
  | Ok (_, Max_Length) => Max_Length
  | Raise _ => fun _ => 0
  end.

(** What a call returns, or the empty string. *)
Definition text_of (r : pyres string) : string :=
  match r with Ok s => s | Raise _ => "" end.

End Legends.

(** ** Calls on Python ints *)

(** The rows of the docstring of [__shifting], in thousandths. *)
Definition three_rows : columns :=
  call (Some [VStr "Altitude"; VStr "Height"; VStr "Width"])
       (Some [VStr "Alt"; VStr "H"; VStr "Wid"])
       (Some [VNum 988; VNum 326; VNum 52322])
       (Some [VNum 1; VNum 1; VNum 12001])
       (Some [VStr "cm"; VStr "m"; VStr "km"]).

(** A name that opens a LaTeX inclusion and does not close it. *)
Definition open_inclusion : columns :=
  call (Some [VStr "a$"; VStr "abcd"])
       (Some [VStr "x"; VStr "y"])
       (Some [VNum 1; VNum 2])
       (Some [VNum 1; VNum 1])
       (Some [VStr "m"; VStr "m"]).

(** Empty strings and zeros. *)
Definition zeros : columns :=
  call (Some [VStr ""; VStr "abc"])
       (Some [VStr "s"; VStr ""])
       (Some [VNum 0; VNum 15])
       (Some [VNum 1; VNum 0])
       (Some [VStr "m"; VStr ""]).

(** No names. *)
Definition names_none : columns :=
  call None (Some [VStr "A"]) (Some [VNum 1]) (Some [VNum 2]) (Some [VStr "cm"]).

Definition names_empty : columns :=
  call (Some []) (Some [VStr "A"]) (Some [VNum 1]) (Some [VNum 2]) (Some [VStr "cm"]).

(** A unit that is a number. *)
Definition units_mixed : columns :=
  call (Some [VStr "a"; VStr "b"]) (Some [VStr "A"; VStr "B"])
       (Some [VNum 1; VNum 2]) (Some [VNum 2; VNum 3])
       (Some [VStr "cm"; VNum 1]).

Definition names_empty_units_mixed : columns :=
  call (Some []) (Some [VStr "A"; VStr "B"])
       (Some [VNum 1; VNum 2]) (Some [VNum 2; VNum 3])
       (Some [VStr "cm"; VNum 1]).

(** The same unit, behind a value that is [None] beside a number. *)
Definition values_none_units_mixed : columns :=
  call (Some [VStr "a"; VStr "b"]) (Some [VStr "A"; VStr "B"])
       (Some [VNum 1; VNone]) (Some [VNum 2; VNum 3])
       (Some [VStr "cm"; VNum 1]).

(** A value that is the number 0, and no other blank. *)
Definition zero_value : columns :=
  call (Some [VStr "a"; VStr "b"]) (Some [VStr "A"; VStr "B"])
       (Some [VNum 0; VNum 15]) (Some [VNum 1; VNum 2])
       (Some [VStr "cm"; VStr "m"]).

(** The blank-row scenario of the specification, for any two numbers. *)
Definition blank_row {stack : NumericStack} (value error : num) : columns :=
  call (Some [VStr "Alt"; VNone]) (Some [VStr "A"; VNone])
       (Some [VNum value; VNone]) (Some [VNum error; VNone])
       (Some [VStr "cm"; VNone]).

(** ** Plain text *)

(** A cell whose text, the string or the rounded number, has no [$]. *)
Definition no_dollar {stack : NumericStack} (ROUNDING_COEF : Z) (v : pyval) : bool :=
  match v with
  | VStr s => (Str.count "$" s =? 0)%nat
  | VNum x => (Str.count "$" (py_round_str x ROUNDING_COEF) =? 0)%nat
  | _ => true
  end.

(** A call without LaTeX inclusions. *)
Definition plain_text {stack : NumericStack} (c : columns) (ROUNDING_COEF : Z) : bool :=
  forallb (fun k => forallb (no_dollar ROUNDING_COEF) (cells (c k))) keys.

(** ** Strings of letters *)

(** A string of ASCII letters only, as a command name is. *)
Definition letters (w : string) : bool := forallb Re.letter (chars w).

(** ** Metrix_legend *)

(** Lines 183-211.  The axes, the artists, the samples, the font
    properties and the legend are matplotlib's: the model keeps them
    abstract and follows the checks the function makes before it asks the
    axes for a legend. *)
Module Metrix.

(** What the function raises. *)
Inductive failure :=
| Value (message : string)   (* a ValueError of lines 184, 186, 191, 199 *)
| NoLen.                     (* TypeError: object of type 'NoneType' has no len() *)

Inductive outcome (A : Type) :=
| Returns (a : A)
| Raises (f : failure).
Arguments Returns {A} a.
Arguments Raises {A} f.

Definition and_then {A B} (o : outcome A) (f : A -> outcome B) : outcome B :=
  match o with
  | Returns a => f a
  | Raises e => Raises e
  end.

(** [bool(o)] for [None] or a list. *)
Definition truth {A} (o : option (list A)) : bool :=
  match o with
  | Some (_ :: _) => true
  | _ => false
  end.

(** [len(o)] for [None] or a list. *)
Definition len {A} (o : option (list A)) : outcome nat :=
  match o with
  | Some l => Returns (length l)
  | None => Raises NoLen
  end.

(** [str(n)] for a length. *)
Definition str_nat (n : nat) : string := str_int (Z.of_nat n).

(** The text [[a, b, ...]] that ends the messages of lines 191 and 199. *)
Definition bracketed (ns : list nat) : string :=
  "[" +:+ Str.join ", " (str_nat <$> ns) +:+ "]".

Definition ax_message : string :=
  "ValueError: parameter ```ax``` must not be None".

Definition handles_message : string :=
  "ValueError: parameter ```handles``` must not be None".

Definition samples_message (ns : list nat) : string :=
  "ValueError: ```handles, Y_obs, Y_pred``` must have same number of samples, not "
  +:+ bracketed ns.

Definition flags_message (ns : list nat) : string :=
  "ValueError: parameters ```handles, R2, chi, RMSE``` must have same number of samples, not "
  +:+ bracketed ns.

Section Legend.

Variables (Axes Artist Sample FontProperties Legend : Type).

(** [ax.legend()] *)
Variable legend : Axes -> Legend.

(** [FontProperties(family='monospace', size=10, weight='normal', style='normal')] *)
Variable monospace : FontProperties.

(** The locals that lines 193-202 leave for the rest of the function. *)
Record locals := {
  R2 : option (list bool);
  chi : option (list bool);
  RMSE : option (list bool);
  title_fontproperties : FontProperties;
  prop : FontProperties;
}.

(** Lines 193-199: the three lists of flags. *)
Definition flags (SAMPLES_NUM : nat) (R2 chi RMSE : option (list bool)) :
    outcome (option (list bool) * option (list bool) * option (list bool)) :=
  if negb (truth R2) || truth chi || truth RMSE then
    let all := Some (replicate SAMPLES_NUM true) in
    Returns (all, all, all)
  else
    and_then (len R2) (fun a =>
    and_then (len chi) (fun b =>
    and_then (if (a =? b)%nat
              then and_then (len RMSE) (fun c =>
                     Returns ((b =? c)%nat && (c =? SAMPLES_NUM)%nat))
              else Returns false) (fun same =>
    if negb same then
      and_then (len R2) (fun a =>
      and_then (len chi) (fun b =>
      and_then (len RMSE) (fun c =>
      Raises (Value (flags_message [SAMPLES_NUM; a; b; c])))))
    else Returns (R2, chi, RMSE)))).

(** Lines 185-202: the checks that follow the one on the axes, and the
    locals they leave. *)
Definition checks (handles : option (list Artist))
    (Y_obs Y_pred : list Sample) (R2 chi RMSE : option (list bool))
    (title_fontproperties prop : option FontProperties) : outcome locals :=
  if negb (truth handles) then Raises (Value handles_message)
  else
    and_then (len handles) (fun SAMPLES_NUM =>
    if negb ((SAMPLES_NUM =? length Y_obs)%nat
             && (length Y_obs =? length Y_pred)%nat) then
      Raises (Value (samples_message [SAMPLES_NUM; length Y_obs; length Y_pred]))
    else
      and_then (flags SAMPLES_NUM R2 chi RMSE) (fun '(R2, chi, RMSE) =>
      Returns {|
        R2 := R2; chi := chi; RMSE := RMSE;
        title_fontproperties :=
          match title_fontproperties with Some f => f | None => monospace end;
        prop := match prop with Some f => f | None => monospace end;
      |})).

(** Lines 183-211. *)
Definition Metrix_legend (ax : option Axes) (handles : option (list Artist))
    (Y_obs Y_pred : list Sample) (R2 chi RMSE : option (list bool))
    (title_fontproperties prop : option FontProperties) : outcome Legend :=
  match ax with
  | None => Raises (Value ax_message)
  | Some ax =>
      and_then (checks handles Y_obs Y_pred R2 chi RMSE title_fontproperties prop)
        (fun _ => Returns (legend ax))
  end.

End Legend.

Arguments locals : clear implicits.
Arguments R2 {FontProperties} _.
Arguments chi {FontProperties} _.
Arguments RMSE {FontProperties} _.
Arguments title_fontproperties {FontProperties} _.
Arguments prop {FontProperties} _.
Arguments checks {Artist Sample FontProperties} monospace handles Y_obs Y_pred
  R2 chi RMSE title_fontproperties prop.
Arguments Metrix_legend {Axes Artist Sample FontProperties Legend} legend monospace
  ax handles Y_obs Y_pred R2 chi RMSE title_fontproperties prop.

End Metrix.

Example docstring_1 :
  LaTeX_str_length (VStr "A + $ \chi^{2} $ + B") = Ok 10.
Proof. reflexivity. Qed.

Example docstring_2 : LaTeX_str_length (VStr "$ \chi^{2} $") = Ok 2.
Proof. reflexivity. Qed.

(** * Strings *)

Section Strings.

Implicit Types (s t : string) (c : ascii).

Lemma sapp_nil_l s : "" +:+ s = s.
Proof. reflexivity. Qed.

Lemma sapp_cons c s t : String c s +:+ t = String c (s +:+ t).
Proof. reflexivity. Qed.

Lemma sapp_nil_r s : s +:+ "" = s.
Proof. induction s as [|c s IH]; [done|]. by rewrite sapp_cons, IH. Qed.

Lemma sapp_assoc s t u : (s +:+ t) +:+ u = s +:+ (t +:+ u).
Proof. induction s as [|c s IH]; [done|]. by rewrite !sapp_cons, IH. Qed.

Lemma len_nil : Str.len "" = 0.
Proof. reflexivity. Qed.

Lemma len_cons c s : Str.len (String c s) = 1 + Str.len s.
Proof. unfold Str.len. simpl String.length. lia. Qed.

Lemma len_app s t : Str.len (s +:+ t) = Str.len s + Str.len t.
Proof.
  induction s as [|c s IH]; [done|].
  rewrite sapp_cons, !len_cons, IH. lia.
Qed.

Lemma len_nonneg s : 0 <= Str.len s.
Proof. unfold Str.len. lia. Qed.

Lemma len_mul c n : Str.len (Str.mul c n) = Z.max 0 n.
Proof.
  unfold Str.mul, Str.len.
  assert (H : forall k, String.length (string_of_list_ascii (replicate k c)) = k).
  { induction k as [|k IH]; simpl; [done|]. by rewrite IH. }
  rewrite H. lia.
Qed.

Lemma sum_cons x (l : list Z) : Spec.sum (x :: l) = x + Spec.sum l.
Proof. reflexivity. Qed.

Lemma sum_app (l k : list Z) : Spec.sum (l ++ k) = Spec.sum l + Spec.sum k.
Proof.
  induction l as [|x l IH]; [done|].
  rewrite <- app_comm_cons, !sum_cons, IH. lia.
Qed.

Lemma len_join_empty (l : list string) :
  Str.len (Str.join "" l) = Spec.sum (Str.len <$> l).
Proof.
  unfold Str.join. induction l as [|x [|y l] IH].
  - reflexivity.
  - simpl. lia.
  - change (String.concat "" (x :: y :: l)) with (x +:+ "" +:+ String.concat "" (y :: l)).
    rewrite sapp_nil_l, len_app, IH. reflexivity.
Qed.

End Strings.

(** * Splitting on a character *)

Section Split.

Implicit Types (s t : string) (c sep : ascii).

Lemma split_nonempty sep s : exists h r, Str.split sep s = h :: r.
Proof.
  destruct s as [|c s]; simpl; [by eauto|].
  destruct (Ascii.eqb c sep); [by eauto|].
  destruct (Str.split sep s); eauto.
Qed.

Lemma count_nil c : Str.count c "" = 0%nat.
Proof. reflexivity. Qed.

Lemma count_cons c d s :
  Str.count c (String d s) = ((if Ascii.eqb d c then 1 else 0) + Str.count c s)%nat.
Proof.
  unfold Str.count. simpl list_ascii_of_string. rewrite filter_cons.
  destruct (Ascii.eqb_spec d c), (decide (d = c)); try done.
Qed.

Lemma count_app c s t :
  Str.count c (s +:+ t) = (Str.count c s + Str.count c t)%nat.
Proof.
  induction s as [|d s IH]; [done|].
  rewrite sapp_cons, !count_cons, IH. lia.
Qed.

Lemma count_mul_other c d n : d ≠ c -> Str.count c (Str.mul d n) = 0%nat.
Proof.
  intros Hne. unfold Str.mul.
  induction (Z.to_nat n) as [|k IH]; [done|].
  simpl replicate. simpl string_of_list_ascii. rewrite count_cons, IH.
  by destruct (Ascii.eqb_spec d c).
Qed.

Lemma length_split sep s : length (Str.split sep s) = S (Str.count sep s).
Proof.
  induction s as [|c s IH]; [done|].
  rewrite count_cons. simpl Str.split.
  destruct (Ascii.eqb c sep); simpl; [by rewrite IH|].
  destruct (split_nonempty sep s) as (h & r & E).
  rewrite E in IH |- *. exact IH.
Qed.

Lemma split_without sep s : Str.count sep s = 0%nat -> Str.split sep s = [s].
Proof.
  induction s as [|c s IH]; [done|].
  rewrite count_cons. simpl Str.split.
  destruct (Ascii.eqb c sep); [done|].
  intros H. by rewrite IH.
Qed.

Lemma split_app sep s t :
  Str.split sep (s +:+ t) = app_segs (Str.split sep s) (Str.split sep t).
Proof.
  induction s as [|c s IH].
  - rewrite sapp_nil_l. simpl.
    by destruct (split_nonempty sep t) as (h & r & ->).
  - rewrite sapp_cons. simpl Str.split. rewrite IH.
    destruct (split_nonempty sep s) as (h & r & ->).
    destruct (split_nonempty sep t) as (h' & r' & ->).
    destruct (Ascii.eqb c sep); [done|].
    by destruct r.
Qed.

(** The characters of a string are those of its segments and the separators
    between them. *)
Lemma len_split sep s :
  Str.len s = Spec.sum (Str.len <$> Str.split sep s) + Z.of_nat (Str.count sep s).
Proof.
  induction s as [|c s IH]; [done|].
  rewrite len_cons, count_cons, IH. simpl Str.split.
  destruct (Ascii.eqb c sep).
  - rewrite fmap_cons, sum_cons, len_nil. lia.
  - destruct (split_nonempty sep s) as (h & r & ->).
    rewrite !fmap_cons, !sum_cons, len_cons. lia.
Qed.

End Split.

(** * The estimator *)

Section Estimator.

Context {stack : NumericStack}.

Implicit Types (s t seg : string) (value segs : list string).
Local Arguments Re.letter : simpl never.

Lemma mod2_even i : (i mod 2 =? 0)%nat = Nat.even i.
Proof.
  destruct (Nat.Even_or_Odd i) as [[k ->]|[k ->]].
  - by rewrite Nat.even_mul, (Nat.mul_comm 2 k), Nat.Div0.mod_mul.
  - by rewrite Nat.even_add, Nat.even_mul, Nat.add_comm, (Nat.mul_comm 2 k),
      Nat.Div0.mod_add.
Qed.

Lemma loop_body_after value n :
  loop_body (imap (after n) value) n = imap (after (S n)) value.
Proof.
  unfold loop_body. rewrite mod2_even.
  apply list_eq. intros i.
  destruct (Nat.even n) eqn:En; simpl.
  - rewrite !list_lookup_imap. destruct (value !! i) as [seg|]; [|done].
    simpl. f_equal. unfold after.
    destruct (Nat.ltb_spec i n), (Nat.ltb_spec i (S n)); try lia; try done.
    assert (i = n) as -> by lia. unfold Nat.odd. by rewrite En.
  - rewrite list_lookup_alter, !list_lookup_imap.
    destruct (decide (n = i)) as [<-|Hne]; destruct (value !! _) as [seg|]; try done.
    + simpl. f_equal. unfold after.
      rewrite Nat.ltb_irrefl, (proj2 (Nat.ltb_lt n (S n))) by lia.
      unfold Nat.odd. by rewrite En.
    + simpl. f_equal. unfold after.
      destruct (Nat.ltb_spec i n), (Nat.ltb_spec i (S n)); try lia; done.
Qed.

Lemma loop_after value n :
  foldl loop_body value (seq 0 n) = imap (after n) value.
Proof.
  induction n as [|n IH].
  - simpl. apply list_eq. intros i. rewrite list_lookup_imap.
    by destruct (value !! i).
  - rewrite seq_S, foldl_snoc, IH. apply loop_body_after.
Qed.

(** Lines 45-50: the loop rewrites the segments of odd index. *)
Lemma loop_inclusions value :
  foldl loop_body value (seq 0 (length value))
  = imap (fun i seg => if Nat.odd i then inclusion seg else seg) value.
Proof.
  rewrite loop_after. apply imap_ext. intros i seg Hi.
  unfold after. apply lookup_lt_Some in Hi.
  by rewrite (proj2 (Nat.ltb_lt _ _) Hi).
Qed.

Lemma alt_width_imap markup segs :
  alt_width markup segs
  = Spec.sum (Str.len <$>
      imap (fun i seg => if xorb markup (Nat.odd i) then inclusion seg else seg) segs).
Proof.
  revert markup. induction segs as [|seg segs IH]; intros markup; [done|].
  rewrite imap_cons, fmap_cons, sum_cons. simpl alt_width. rewrite IH.
  rewrite xorb_false_r. f_equal. f_equal. f_equal.
  apply imap_ext. intros i x _. simpl.
  rewrite Nat.odd_succ, <- Nat.negb_odd. by destruct markup, (Nat.odd i).
Qed.

(** The estimate of a string is the width of its segments, the first of
    them plain. *)
Lemma estimate_alt s :
  LaTeX_str_length (VStr s) = Ok (alt_width false (Str.split "$" s)).
Proof.
  unfold LaTeX_str_length. f_equal.
  rewrite loop_inclusions, len_join_empty, alt_width_imap. done.
Qed.

(** ** The source's normalization and the specification's *)

Lemma chars_app s t : chars (s +:+ t) = chars s ++ chars t.
Proof. induction s as [|c s IH]; [done|]. rewrite sapp_cons. simpl. by rewrite IH. Qed.

Lemma len_chars s : Str.len s = Z.of_nat (length (chars s)).
Proof.
  unfold Str.len. f_equal. induction s as [|c s IH]; [done|]. simpl. by rewrite IH.
Qed.

Lemma sub_class_chars s :
  chars (Re.sub_class Re.brace_or_space "" s)
  = Spec.remove_braces_and_spaces (chars s).
Proof.
  unfold Spec.remove_braces_and_spaces.
  induction s as [|c s IH]; [done|].
  simpl Re.sub_class. simpl chars. rewrite filter_cons. unfold Re.brace_or_space.
  destruct (Ascii.eqb_spec c "{"), (Ascii.eqb_spec c "}"), (Ascii.eqb_spec c " ");
    simpl; rewrite ?sapp_nil_l; case_decide; try tauto; simpl;
    first [exact IH | f_equal; exact IH].
Qed.

Lemma replace_scripts_chars s :
  chars (Str.replace "_" " " (Str.replace "^" " " s)) = Spec.scripts_to_space (chars s).
Proof.
  unfold Spec.scripts_to_space.
  induction s as [|c s IH]; [done|].
  simpl chars. rewrite fmap_cons, <- IH. simpl Str.replace.
  destruct (Ascii.eqb_spec c "^") as [->|H1].
  - done.
  - simpl Str.replace. destruct (Ascii.eqb_spec c "_") as [->|H2].
    + done.
    + simpl. by rewrite bool_decide_false by tauto.
Qed.

Lemma replace_space_chars s :
  chars (Str.replace " " "" s) = Spec.strip_spaces (chars s).
Proof.
  unfold Spec.strip_spaces.
  induction s as [|c s IH]; [done|].
  simpl chars. rewrite filter_cons. simpl Str.replace.
  destruct (Ascii.eqb_spec c " "); case_decide; try done.
  simpl. by rewrite IH.
Qed.

Lemma skip_letters_length l : (length (Spec.skip_letters l) <= length l)%nat.
Proof.
  induction l as [|c l IH]; simpl; [lia|]. destruct (Re.letter c); simpl; lia.
Qed.

(** Inside a match, the scan drops the letters and goes on. *)
Lemma sub_command_in_match repl s :
  chars (Re.sub_command_from true repl s)
  = match Spec.skip_letters (chars s) with
    | [] => []
    | _ => chars (Re.sub_command_from false repl
                    (string_of_list_ascii (Spec.skip_letters (chars s))))
    end.
Proof.
  induction s as [|c s IH]; [done|].
  simpl chars. simpl Spec.skip_letters.
  destruct (Re.letter c) eqn:L.
  - simpl Re.sub_command_from. rewrite ?L. exact IH.
  - simpl. rewrite ?L. by rewrite string_of_list_ascii_of_string.
Qed.

Lemma collapse_nil fuel : Spec.collapse_commands fuel [] = [].
Proof. by destruct fuel. Qed.

Lemma sub_command_from_cons repl c t :
  Re.sub_command_from false repl (String c t)
  = if Ascii.eqb c "\" then
      match t with
      | String d _ =>
          if Re.letter d then repl +:+ Re.sub_command_from true repl t
          else String c (Re.sub_command_from false repl t)
      | EmptyString => String c EmptyString
      end
    else String c (Re.sub_command_from false repl t).
Proof. reflexivity. Qed.

Lemma sub_command_chars fuel s :
  (length (chars s) <= fuel)%nat ->
  chars (Re.sub_command_from false "_" s) = Spec.collapse_commands fuel (chars s).
Proof.
  revert s. induction fuel as [|fuel IH]; intros s Hlen.
  - destruct s; [done|]. simpl in Hlen. lia.
  - destruct s as [|c [|d s]]; [done| |].
    + rewrite sub_command_from_cons.
      change (Spec.collapse_commands (S fuel) (chars (String c "")))
        with (c :: Spec.collapse_commands fuel []).
      rewrite collapse_nil. by destruct (Ascii.eqb c "\").
    + rewrite sub_command_from_cons.
      change (Spec.collapse_commands (S fuel) (chars (String c (String d s))))
        with (if bool_decide (c = "\"%char) && Re.letter d
              then Spec.placeholder
                     :: Spec.collapse_commands fuel (Spec.skip_letters (chars (String d s)))
              else c :: Spec.collapse_commands fuel (chars (String d s))).
      assert (Hd : (length (chars (String d s)) <= fuel)%nat).
      { simpl in Hlen |- *. lia. }
      destruct (Ascii.eqb_spec c "\") as [->|Hc].
      * rewrite bool_decide_true by done. simpl andb.
        destruct (Re.letter d) eqn:L.
        -- rewrite sapp_cons, sapp_nil_l.
           change (chars (String "_" ?x)) with (Spec.placeholder :: chars x).
           f_equal. rewrite sub_command_in_match.
           pose proof (skip_letters_length (chars (String d s))) as Hs.
           destruct (Spec.skip_letters (chars (String d s))) as [|e l] eqn:E.
           ++ by rewrite collapse_nil.
           ++ rewrite IH; rewrite list_ascii_of_string_of_list_ascii; [done|lia].
        -- change (chars (String ?a ?x)) with (a :: chars x) at 1.
           f_equal. by apply IH.
      * rewrite bool_decide_false by done. simpl andb.
        change (chars (String ?a ?x)) with (a :: chars x) at 1.
        f_equal. by apply IH.
Qed.

Lemma inclusion_normalize seg :
  Str.len (inclusion seg) = Z.of_nat (length (Spec.normalize seg)).
Proof.
  unfold inclusion, Spec.normalize, Re.sub_command.
  rewrite len_chars, replace_space_chars.
  rewrite (sub_command_chars (length (chars (Str.replace "_" " "
    (Str.replace "^" " " (Re.sub_class Re.brace_or_space "" seg)))))) by done.
  by rewrite replace_scripts_chars, sub_class_chars.
Qed.

Lemma alt_width_contribution markup segs :
  alt_width markup segs
  = Spec.sum (imap (fun i => Spec.contribution (if markup then S i else i)) segs).
Proof.
  revert markup. induction segs as [|seg segs IH]; intros markup; [done|].
  rewrite imap_cons, sum_cons. simpl alt_width. rewrite IH. f_equal.
  - destruct markup; unfold Spec.contribution; simpl; [apply inclusion_normalize|done].
  - f_equal. apply imap_ext. intros i x _. simpl.
    destruct markup; simpl; [|done].
    unfold Spec.contribution. by rewrite Nat.even_succ_succ.
Qed.

(** C2.  The estimator is the specification's: it splits on [$], counts a
    segment of even index at its length and a segment of odd index at the
    length of its normalization (braces and spaces deleted, then [^] and
    [_] made spaces, then each backslash command made one placeholder,
    then spaces deleted); the string [$\chi^{2}$] has width 2. *)
Theorem C2_estimator_follows_spec :
  (forall text, LaTeX_str_length (VStr text) = Ok (Spec.estimate text))
  /\ LaTeX_str_length (VStr "$\chi^{2}$") = Ok 2.
Proof.
  split; [|reflexivity].
  intros text. rewrite estimate_alt. f_equal.
  unfold Spec.estimate. rewrite alt_width_contribution. done.
Qed.

(** ** Bounds *)

Lemma collapse_length fuel (l : list ascii) :
  (length (Spec.collapse_commands fuel l) <= length l)%nat.
Proof.
  revert l. induction fuel as [|fuel IH]; intros l; [by destruct l|].
  destruct l as [|c l]; [done|].
  cbn [Spec.collapse_commands].
  destruct (Spec.starts_command (c :: l)); simpl length.
  - pose proof (IH (Spec.skip_letters l)). pose proof (skip_letters_length l). lia.
  - pose proof (IH l). lia.
Qed.

(** An inclusion is never wider than its source text. *)
Lemma inclusion_len seg : 0 <= Str.len (inclusion seg) <= Str.len seg.
Proof.
  split; [apply len_nonneg|].
  rewrite inclusion_normalize, len_chars. apply inj_le.
  unfold Spec.normalize, Spec.strip_spaces, Spec.scripts_to_space,
    Spec.remove_braces_and_spaces.
  etrans; [apply length_filter|]. etrans; [apply collapse_length|].
  rewrite length_fmap. apply length_filter.
Qed.

Lemma alt_width_bounds markup segs :
  0 <= alt_width markup segs <= Spec.sum (Str.len <$> segs).
Proof.
  revert markup. induction segs as [|seg segs IH]; intros markup; [done|].
  rewrite fmap_cons, sum_cons. simpl alt_width.
  specialize (IH (negb markup)).
  pose proof (inclusion_len seg). pose proof (len_nonneg seg).
  destruct markup; lia.
Qed.

(** The estimate of any string lies between 0 and its length. *)
Lemma estimate_bounds s :
  exists n, LaTeX_str_length (VStr s) = Ok n /\ 0 <= n <= Str.len s.
Proof.
  exists (alt_width false (Str.split "$" s)). split; [apply estimate_alt|].
  pose proof (alt_width_bounds false (Str.split "$" s)).
  rewrite (len_split "$" s). lia.
Qed.

Lemma estimate_plain s :
  Str.count "$" s = 0%nat -> LaTeX_str_length (VStr s) = Ok (Str.len s).
Proof.
  intros H. rewrite estimate_alt, split_without by done. simpl. f_equal. lia.
Qed.

(** C7.  On a string with an even number of [$] the estimate is at least 0
    and at most the number of characters; without any [$] it is the
    number of characters. *)
Theorem C7_estimate_bounds s :
  even_dollars s = true ->
  exists n, LaTeX_str_length (VStr s) = Ok n
    /\ 0 <= n <= Str.len s
    /\ (Str.count "$" s = 0%nat -> n = Str.len s).
Proof.
  intros _. destruct (estimate_bounds s) as (n & Hn & Hb).
  exists n. split; [done|]. split; [done|].
  intros H0. rewrite (estimate_plain s H0) in Hn. congruence.
Qed.

(** C8.  The estimator gives 0 on [None]; it raises exactly on a value
    that is neither a string nor [None], and what it raises is the
    [TypeError] of line 40, with no result. *)
Theorem C8_estimator_value_kind :
  LaTeX_str_length VNone = Ok 0
  /\ forall value : pyval,
       (LaTeX_str_length value = Raise (TypeError ValueKind)
        <-> value <> VNone /\ forall s, value <> VStr s)
       /\ (returns (LaTeX_str_length value) = false
           <-> LaTeX_str_length value = Raise (TypeError ValueKind)).
Proof.
  split; [reflexivity|]. intros value. split; split.
  - destruct value; done.
  - intros [H1 H2]. destruct value; try done. by destruct (H2 s).
  - destruct value; done.
  - intros ->. done.
Qed.

End Estimator.
(** * The first loop: widths *)

Section Measure.

Context {stack : NumericStack}.

Implicit Types (k : key) (c : columns) (l : list pyval) (r : Z).
Local Arguments LaTeX_str_length : simpl never.

Lemma bind_Ok {A B} (m : pyres A) (f : A -> pyres B) b :
  m ≫= f = Ok b <-> exists a, m = Ok a /\ f a = Ok b.
Proof.
  destruct m as [a|e]; simpl; split.
  - intros H. by exists a.
  - by intros (a' & [= <-] & H).
  - done.
  - by intros (a' & [=] & _).
Qed.

Lemma mapM_Ok {A B} (f : A -> pyres B) (l : list A) (ys : list B) :
  mapM f l = Ok ys <-> Forall2 (fun x y => f x = Ok y) l ys.
Proof.
  revert ys. induction l as [|x l IH]; intros ys; simpl.
  - split; [by intros [= <-]; constructor|by inversion 1].
  - split.
    + intros H. apply bind_Ok in H as (y & Hy & H).
      apply bind_Ok in H as (ys' & Hys & [= <-]).
      constructor; [done|by apply IH].
    + inversion 1 as [|? y ? ys' Hy Hys]; subst.
      apply IH in Hys. by rewrite Hy, Hys.
Qed.

Lemma foldl_max_ge (x : Z) (t : list Z) :
  x <= foldl Z.max x t /\ forall y, y ∈ t -> y <= foldl Z.max x t.
Proof.
  revert x. induction t as [|z t IH]; intros x; simpl.
  - split; [lia|]. by intros y ?%elem_of_nil.
  - destruct (IH (Z.max x z)) as [H1 H2]. split; [lia|].
    intros y [->|Hy]%elem_of_cons; [lia|by apply H2].
Qed.

Lemma np_amax_Ok (a : list Z) w :
  np_amax a = Ok w -> a <> [] /\ forall y, y ∈ a -> y <= w.
Proof.
  destruct a as [|x t]; [done|]. intros [= <-]. split; [done|].
  destruct (foldl_max_ge x t) as [H1 H2].
  intros y [->|Hy]%elem_of_cons; [done|by apply H2].
Qed.

Lemma estimate_nonneg (v : pyval) n : LaTeX_str_length v = Ok n -> 0 <= n.
Proof.
  destruct v as [|s|x|b]; try done.
  - intros [= <-]. lia.
  - destruct (estimate_bounds s) as (m & Hm & Hb). rewrite Hm. intros [= <-]. lia.
Qed.

(** What [LaTeX_Str_Length(a).max()] is when it returns. *)
Lemma widest_Ok (a : list pyval) w :
  LaTeX_Str_Length a ≫= np_amax = Ok w ->
  a <> [] /\ 0 <= w /\
  forall v, v ∈ a -> exists n, LaTeX_str_length v = Ok n /\ n <= w.
Proof.
  intros (ws & Hws & Hmax)%bind_Ok.
  unfold LaTeX_Str_Length, np_vectorize in Hws.
  destruct a as [|v0 a]; [done|].
  apply mapM_Ok in Hws. apply np_amax_Ok in Hmax as [_ Hmax].
  split; [done|]. split.
  - inversion Hws as [|? n0 ? ? Hn0 _]; subst.
    apply estimate_nonneg in Hn0. specialize (Hmax n0 (list_elem_of_here _ _)). lia.
  - intros v [i Hi]%list_elem_of_lookup.
    destruct (Forall2_lookup_l _ _ _ i v Hws Hi) as (n & Hn & Hvn).
    exists n. split; [done|]. apply Hmax. by eapply list_elem_of_lookup_2.
Qed.

Lemma forallb_is_num_no_str l s :
  forallb is_num_or_none l = true -> VStr s ∉ l.
Proof.
  intros H Hs. rewrite forallb_forall in H.
  apply list_elem_of_In in Hs. by apply H in Hs.
Qed.

(** One turn of the first loop, when it does not raise. *)
Lemma measure_column_Ok k col r rc rc' w :
  measure_column k col r rc = Ok (rc', w) ->
  rc' = Nat.max rc (col_len col) /\ 0 <= w /\ col <> Some []
  /\ (col = None -> w = 0)
  /\ forall l s, col = Some l -> VStr s ∈ l ->
       exists n, LaTeX_str_length (VStr s) = Ok n /\ n <= w.
Proof.
  unfold measure_column. destruct col as [l|]; simpl.
  - destruct (forallb is_str_or_none l) eqn:Hstr.
    + intros (w' & Hw & [= <- <-])%bind_Ok.
      apply widest_Ok in Hw as (Hne & H0 & Hall).
      repeat split; try done; [congruence|].
      intros l' s [= <-] Hs. by apply Hall.
    + destruct (forallb is_num_or_none l) eqn:Hnum.
      * intros (a & Ha & (w' & Hw & [= <- <-])%bind_Ok)%bind_Ok.
        apply widest_Ok in Hw as (Hne & H0 & Hall).
        repeat split; try done.
        -- intros [= ->]. done.
        -- intros l' s [= <-] Hs. by apply forallb_is_num_no_str in Hs.
      * case_bool_decide as Hl; [|done]. subst l. done.
  - intros [= <- <-]. repeat split; try done; lia.
Qed.

(** Whether a turn raises does not depend on the rows counted so far. *)
Lemma measure_column_rows k col r rc rc' :
  returns (measure_column k col r rc) = returns (measure_column k col r rc').
Proof.
  unfold measure_column. destruct col as [l|]; [|done].
  destruct (forallb is_str_or_none l).
  { by destruct (LaTeX_Str_Length l ≫= np_amax). }
  destruct (forallb is_num_or_none l).
  { destruct (np_round_astype_str l r) as [a|]; [|done]. simpl.
    by destruct (LaTeX_Str_Length (VStr <$> a) ≫= np_amax). }
  by case_bool_decide.
Qed.

Lemma measure_loop_Ok ks c r rc0 W0 rc W :
  NoDup ks ->
  measure_loop ks c r rc0 W0 = Ok (rc, W) ->
  (forall k, k ∉ ks -> W k = W0 k)
  /\ (forall k, k ∈ ks -> exists rc1 rc2, measure_column k (c k) r rc1 = Ok (rc2, W k))
  /\ (rc0 <= rc)%nat
  /\ (forall k, k ∈ ks -> (col_len (c k) <= rc)%nat)
  /\ (rc = rc0 \/ exists k, k ∈ ks /\ rc = col_len (c k)).
Proof.
  intros Hnd. revert rc0 W0. induction ks as [|k ks IH]; intros rc0 W0; simpl.
  - intros [= <- <-]. split_and!; try done; try (by intros k ?%elem_of_nil).
    by left.
  - apply NoDup_cons in Hnd as [Hk Hnd].
    intros ([rc1 w] & Hcol & Hloop)%bind_Ok.
    destruct (IH Hnd _ _ Hloop) as (HW0 & HW & Hle & Hlen & Hrc).
    pose proof (measure_column_Ok _ _ _ _ _ _ Hcol) as (-> & _).
    assert (HWk : W k = w).
    { rewrite HW0 by done. unfold insert. apply fn_lookup_insert. }
    repeat split.
    + intros k' Hk'. apply not_elem_of_cons in Hk' as [Hne Hk'].
      rewrite HW0 by done. by apply fn_lookup_insert_ne.
    + intros k' [->|Hk']%elem_of_cons; [|by apply HW].
      rewrite HWk. eauto.
    + lia.
    + intros k' [->|Hk']%elem_of_cons; [lia|by apply Hlen].
    + destruct Hrc as [->|(k' & Hk' & ->)].
      * destruct (Nat.max_spec rc0 (col_len (c k))) as [[_ ->]|[_ ->]].
        -- right. exists k. split; [left|done].
        -- by left.
      * right. exists k'. split; [by right|done].
Qed.

Lemma NoDup_keys : NoDup keys.
Proof. compute_done. Qed.

Lemma elem_of_keys k : k ∈ keys.
Proof. destruct k; compute_done. Qed.

(** The first loop, when it does not raise: each [Max_Length[k]] is the
    width of its column, and [Row_Count] the length of the longest list. *)
Lemma measure_Ok c r rc W :
  measure c r = Ok (rc, W) ->
  (forall k, exists rc1 rc2, measure_column k (c k) r rc1 = Ok (rc2, W k))
  /\ (forall k, (col_len (c k) <= rc)%nat)
  /\ (rc = 0%nat \/ exists k, rc = col_len (c k)).
Proof.
  intros H. apply (measure_loop_Ok _ _ _ _ _ _ _ NoDup_keys) in H
    as (_ & HW & _ & Hlen & Hrc).
  split; [|split].
  - intros k. apply HW, elem_of_keys.
  - intros k. apply Hlen, elem_of_keys.
  - destruct Hrc as [->|(k & _ & ->)]; eauto.
Qed.

End Measure.

(** * The second loop: padding in place *)

Section Shift.

Context {stack : NumericStack}.

Implicit Types (k : key) (c Parts : columns) (l col : list pyval) (r M : Z).
Local Arguments LaTeX_str_length : simpl never.
Local Arguments shift_cell : simpl never.

(** The loop over the rows [a, a + n) of a list, when it does not raise:
    it needs every one of these rows, overwrites each with its padded
    string and leaves the others. *)
Lemma shift_rows_Ok k M r n a col col' :
  shift_rows k M r (seq a n) col = (col', Ok tt) ->
  length col' = length col
  /\ (n <> 0%nat -> (a + n <= length col)%nat)
  /\ (forall i, ~ (a <= i < a + n)%nat -> col' !! i = col !! i)
  /\ (forall i, (a <= i < a + n)%nat ->
        exists cell s, col !! i = Some cell
          /\ shift_cell k M r cell = Ok s
          /\ col' !! i = Some (VStr s)).
Proof.
  revert a col. induction n as [|n IH]; intros a col; simpl.
  - intros [= <-]. split_and!; try done. intros i Hi. lia.
  - destruct (col !! a) as [cell|] eqn:Hcell; [|done].
    destruct (shift_cell k M r cell) as [s|e] eqn:Hs; [|done].
    intros H. apply IH in H as (Hlen & Hn & Hout & Hin).
    rewrite length_insert in Hlen, Hn.
    pose proof (lookup_lt_Some _ _ _ Hcell) as Ha.
    split_and!.
    + done.
    + intros _. destruct n; [lia|]. specialize (Hn ltac:(done)). lia.
    + intros i Hi. rewrite Hout by lia. apply list_lookup_insert_ne. lia.
    + intros i Hi. destruct (decide (i = a)) as [->|Hne].
      * exists cell, s. split_and!; try done.
        rewrite Hout by lia. by apply list_lookup_insert_eq.
      * destruct (Hin i ltac:(lia)) as (cell' & s' & H1 & H2 & H3).
        exists cell', s'. split_and!; try done.
        by rewrite list_lookup_insert_ne in H1 by done.
Qed.

(** The second loop, when it does not raise: a list that is not empty has
    gone through the loop over its rows; anything else is as it was. *)
Lemma shift_loop_Ok ks rc W r Parts Parts' :
  NoDup ks ->
  shift_loop ks rc W r Parts = (Parts', Ok tt) ->
  (forall k, k ∉ ks -> Parts' k = Parts k)
  /\ (forall k, k ∈ ks ->
        match Parts k with
        | Some (cell :: l) =>
            exists col', shift_rows k (W k) r (seq 0 rc) (cell :: l) = (col', Ok tt)
                         /\ Parts' k = Some col'
        | _ => Parts' k = Parts k
        end).
Proof.
  intros Hnd. revert Parts. induction ks as [|k ks IH]; intros Parts; simpl.
  - intros [= <-]. split; [done|]. by intros k ?%elem_of_nil.
  - apply NoDup_cons in Hnd as [Hk Hnd].
    destruct (Parts k) as [[|cell l]|] eqn:Hcol.
    + intros H. destruct (IH Hnd _ H) as [Hout Hin]. split.
      * intros k' [_ ?]%not_elem_of_cons. by apply Hout.
      * intros k' [->|Hk']%elem_of_cons; [|by apply Hin].
        by rewrite (Hout k Hk), Hcol.
    + destruct (shift_rows k (W k) r (seq 0 rc) (cell :: l)) as [col' [[]|e]] eqn:Hrows;
        [|done].
      intros H. destruct (IH Hnd _ H) as [Hout Hin]. split.
      * intros k' [Hne ?]%not_elem_of_cons. rewrite Hout by done.
        by apply fn_lookup_insert_ne.
      * intros k' [->|Hk']%elem_of_cons.
        -- rewrite Hcol. exists col'. split; [done|].
           rewrite Hout by done. apply fn_lookup_insert.
        -- specialize (Hin k' Hk').
           assert (k ≠ k') as Hne by (by intros ->).
           by rewrite (fn_lookup_insert_ne Parts k k' _ Hne) in Hin.
    + intros H. destruct (IH Hnd _ H) as [Hout Hin]. split.
      * intros k' [_ ?]%not_elem_of_cons. by apply Hout.
      * intros k' [->|Hk']%elem_of_cons; [|by apply Hin].
        by rewrite (Hout k Hk), Hcol.
Qed.

(** ** The third loop: rows *)

Lemma part_Ok Parts k row s :
  part Parts k row = Ok s <-> exists col, Parts k = Some col /\ col !! row = Some (VStr s).
Proof.
  unfold part. split.
  - destruct (Parts k) as [col|]; [|done].
    destruct (col !! row) as [[]|] eqn:E; try done. intros [= <-]. eauto.
  - by intros (col & -> & ->).
Qed.

Lemma concat_row_Ok Parts row out :
  concat_row Parts row = Ok out <->
  exists n y v e u,
    part Parts names row = Ok n /\ part Parts signs row = Ok y
    /\ part Parts values row = Ok v /\ part Parts errors row = Ok e
    /\ part Parts units row = Ok u /\ out = line n y v e u.
Proof.
  unfold concat_row, line, name_separator. split.
  - intros (n & Hn & (y & Hy & (v & Hv & (e & He & (u & Hu & [= <-])%bind_Ok)
      %bind_Ok)%bind_Ok)%bind_Ok)%bind_Ok.
    exists n, y, v, e, u. split_and!; try done.
    destruct (Str.is_blank n); by rewrite !sapp_assoc.
  - intros (n & y & v & e & u & -> & -> & -> & -> & -> & ->). simpl.
    f_equal. destruct (Str.is_blank n); by rewrite !sapp_assoc.
Qed.

Lemma concatenate_Ok rc Parts out :
  concatenate rc Parts = Ok out <->
  exists lines, Forall2 (fun row ln => concat_row Parts row = Ok ln) (seq 0 rc) lines
                /\ out = Str.join newline lines.
Proof.
  unfold concatenate. rewrite bind_Ok. split.
  - intros (lines & H%mapM_Ok & [= <-]). eauto.
  - intros (lines & H%mapM_Ok & ->). eauto.
Qed.

(** ** The call *)

(** A call that returns has gone through the three loops. *)
Lemma shifting_Ok c r c' out :
  shifting c r = (c', Ok out) <->
  exists rc W, measure c r = Ok (rc, W)
    /\ shift_loop keys rc W r c = (c', Ok tt)
    /\ concatenate rc c' = Ok out.
Proof.
  unfold shifting. split.
  - destruct (measure c r) as [[rc W]|] eqn:Hm; [|done].
    destruct (shift_loop keys rc W r c) as [Parts [[]|]] eqn:Hs; [|done].
    intros [= <- H]. eauto.
  - intros (rc & W & -> & -> & ->). done.
Qed.

(** In a call that returns, every parameter is bound to a list of
    [Row_Count] cells, and the call has overwritten each cell with its
    padded string. *)
Lemma shifting_cell c r c' out rc W k row :
  shifting c r = (c', Ok out) -> measure c r = Ok (rc, W) -> (row < rc)%nat ->
  exists l l' cell s,
    c k = Some l /\ c' k = Some l'
    /\ length l = rc /\ length l' = rc
    /\ l !! row = Some cell
    /\ shift_cell k (W k) r cell = Ok s
    /\ l' !! row = Some (VStr s).
Proof.
  intros (rc' & W' & Hm & Hs & Hc)%shifting_Ok Hm' Hrow.
  rewrite Hm in Hm'. injection Hm' as -> ->.
  apply concatenate_Ok in Hc as (lines & Hlines & _).
  assert (Hseq : seq 0 rc !! row = Some row) by (by apply lookup_seq).
  destruct (Forall2_lookup_l _ _ _ _ _ Hlines Hseq) as (ln & _ & Hln).
  apply concat_row_Ok in Hln as (n & y & v & e & u & Hn & Hy & Hv & He & Hu & _).
  assert (Hpart : exists s, part c' k row = Ok s) by (destruct k; eauto).
  destruct Hpart as (s & (l' & Hl' & Hs')%part_Ok).
  destruct (shift_loop_Ok _ _ _ _ _ _ NoDup_keys Hs) as [_ Hin].
  specialize (Hin k (elem_of_keys k)).
  destruct (measure_Ok _ _ _ _ Hm) as (_ & Hlen & _). specialize (Hlen k).
  destruct (c k) as [[|cell0 l]|] eqn:Hck; simpl in Hlen.
  - rewrite Hin in Hl'. by injection Hl' as <-.
  - destruct Hin as (col' & Hrows & Hc').
    rewrite Hc' in Hl'. injection Hl' as ->.
    apply shift_rows_Ok in Hrows as (Hlen' & Hn' & _ & Hin).
    destruct (Hin row ltac:(lia)) as (cell & s' & H1 & H2 & H3).
    specialize (Hn' ltac:(lia)). simpl in Hn'.
    exists (cell0 :: l), l', cell, s'. split_and!; try done; simpl in *; lia.
  - by rewrite Hin in Hl'.
Qed.

End Shift.

(** * The width of a padded cell *)

Section Widths.

Context {stack : NumericStack}.

Implicit Types (k : key) (c : columns) (l : list pyval) (r M : Z) (s t : string).
Local Arguments LaTeX_str_length : simpl never.

Lemma estimate_width s : LaTeX_str_length (VStr s) = Ok (width s).
Proof. apply estimate_alt. Qed.

Lemma alt_width_app_segs markup (l1 l2 : list string) :
  l1 <> [] -> l2 <> [] -> Nat.odd (length l1) = negb markup ->
  alt_width markup (app_segs l1 l2) = alt_width markup l1 + alt_width false l2.
Proof.
  revert markup. induction l1 as [|x l1 IH]; intros markup Hl1 Hl2 Hodd; [done|].
  destruct l1 as [|x' l1].
  - destruct markup; [done|]. destruct l2 as [|h l2]; [done|].
    simpl. rewrite len_app. lia.
  - change (app_segs (x :: x' :: l1) l2) with (x :: app_segs (x' :: l1) l2).
    change (alt_width markup (x :: ?l)) with
      (Str.len (if markup then inclusion x else x) + alt_width (negb markup) l).
    rewrite IH; [lia|done|done|].
    change (length (x :: x' :: l1)) with (S (length (x' :: l1))) in Hodd.
    rewrite Nat.odd_succ, <- Nat.negb_odd in Hodd.
    destruct (Nat.odd (length (x' :: l1))), markup; done.
Qed.

(** After an even number of [$] the text that follows is measured on its own. *)
Lemma width_app s t :
  even_dollars s = true -> width (s +:+ t) = width s + width t.
Proof.
  unfold even_dollars, width. intros Heven.
  rewrite split_app. apply alt_width_app_segs.
  - by destruct (split_nonempty "$" s) as (h & q & ->).
  - by destruct (split_nonempty "$" t) as (h & q & ->).
  - rewrite length_split, Nat.odd_succ, Heven. done.
Qed.

Lemma width_plain s : Str.count "$" s = 0%nat -> width s = Str.len s.
Proof. intros H. unfold width. rewrite split_without by done. simpl. lia. Qed.

Lemma even_dollars_plain s : Str.count "$" s = 0%nat -> even_dollars s = true.
Proof. unfold even_dollars. intros H. by rewrite H. Qed.

Lemma even_dollars_app s t :
  even_dollars s = true -> even_dollars (s +:+ t) = even_dollars t.
Proof.
  unfold even_dollars. rewrite count_app, Nat.even_add. intros ->.
  by destruct (Nat.even _).
Qed.

Lemma count_spaces n : Str.count "$" (Str.mul " " n) = 0%nat.
Proof. by apply count_mul_other. Qed.

Lemma width_spaces n : width (Str.mul " " n) = Z.max 0 n.
Proof. rewrite width_plain by apply count_spaces. apply len_mul. Qed.

(** Text, then spaces. *)
Lemma width_ljust s n :
  even_dollars s = true -> width (s +:+ Str.mul " " n) = width s + Z.max 0 n.
Proof. intros H. by rewrite width_app, width_spaces. Qed.

(** Spaces, then text. *)
Lemma width_rjust s n : width (Str.mul " " n +:+ s) = Z.max 0 n + width s.
Proof.
  rewrite width_app, width_spaces; [done|].
  apply even_dollars_plain, count_spaces.
Qed.

Lemma width_nonneg s : 0 <= width s.
Proof. apply alt_width_bounds. Qed.

Lemma shift_cell_falsy k M r cell :
  truthy cell = false -> shift_cell k M r cell = Ok (Str.mul " " (M + brackets k)).
Proof.
  intros Ht. unfold shift_cell. rewrite Ht.
  destruct k; cbn [brackets mret pyres_ret]; by rewrite ?Z.add_0_r.
Qed.

(** What one turn of the loop over the rows writes, when it does not raise. *)
Lemma shift_cell_Ok k M r cell s :
  shift_cell k M r cell = Ok s ->
  (truthy cell = false /\ s = Str.mul " " (M + brackets k))
  \/ (truthy cell = true /\
      match k with
      | names => exists s0, cell = VStr s0 /\ s = s0 +:+ Str.mul " " (M - width s0)
      | signs => exists s0, cell = VStr s0
                   /\ s = "[" +:+ s0 +:+ "]" +:+ Str.mul " " (M - width s0)
      | values | errors =>
          exists x, cell = VNum x
            /\ s = Str.mul " " (M - width (py_round_str x r)) +:+ py_round_str x r
      | units => exists s0, cell = VStr s0 /\ s = Str.mul " " (M - width s0) +:+ s0
      end).
Proof.
  destruct (truthy cell) eqn:Ht.
  - unfold shift_cell. rewrite Ht. intros H. right. split; [done|].
    destruct k, cell as [|s0|x|b];
      cbv [str_round as_str] in H; cbn [mbind pyres_bind mret pyres_ret] in H;
      rewrite ?estimate_width in H; cbn [mbind pyres_bind mret pyres_ret] in H;
      try done; injection H as <-; eauto.
  - rewrite shift_cell_falsy by done. intros [= <-]. by left.
Qed.

(** The width of a padded cell: the width of the column, unless the text
    of the cell is wider. *)
Lemma shift_cell_width k M r cell s :
  shift_cell k M r cell = Ok s ->
  0 <= M ->
  (forall s0, cell = VStr s0 -> k = names \/ k = signs -> even_dollars s0 = true) ->
  (forall s0, cell = VStr s0 -> width s0 <= M) ->
  (forall x, cell = VNum x -> k = values \/ k = errors ->
     width (py_round_str x r) <= M) ->
  width s = M + brackets k
  /\ (k = names \/ k = signs -> even_dollars s = true).
Proof.
  intros [[Ht ->]|[Ht H]]%shift_cell_Ok HM Heven Hstr Hnum.
  - rewrite width_spaces. split; [destruct k; simpl; lia|].
    intros _. apply even_dollars_plain, count_spaces.
  - destruct k.
    + destruct H as (s0 & -> & ->). specialize (Hstr s0 eq_refl).
      specialize (Heven s0 eq_refl (or_introl eq_refl)). split.
      * rewrite width_ljust by done. simpl. lia.
      * intros _. rewrite even_dollars_app by done.
        apply even_dollars_plain, count_spaces.
    + destruct H as (s0 & -> & ->). specialize (Hstr s0 eq_refl).
      specialize (Heven s0 eq_refl (or_intror eq_refl)). split.
      * rewrite (width_app "["), width_app, (width_app "]"), width_spaces by done.
        change (width "[") with 1. change (width "]") with 1. simpl. lia.
      * intros _. rewrite (even_dollars_app "["), even_dollars_app,
          (even_dollars_app "]") by done.
        apply even_dollars_plain, count_spaces.
    + destruct H as (x & -> & ->). specialize (Hnum x eq_refl (or_introl eq_refl)).
      split; [|by intros [|]]. rewrite width_rjust. simpl. lia.
    + destruct H as (x & -> & ->). specialize (Hnum x eq_refl (or_intror eq_refl)).
      split; [|by intros [|]]. rewrite width_rjust. simpl. lia.
    + destruct H as (s0 & -> & ->). specialize (Hstr s0 eq_refl).
      split; [|by intros [|]]. rewrite width_rjust. simpl. lia.
Qed.

Lemma name_separator_plain n :
  Str.count "$" (name_separator n) = 0%nat /\ Str.len (name_separator n) = 2.
Proof. unfold name_separator. by destruct (Str.is_blank n). Qed.

(** Where the separators of a row stand. *)
Lemma offsets n y v :
  even_dollars n = true -> even_dollars y = true ->
  width (before_colon n) = width n
  /\ width (before_equals n y) = width n + 2 + width y
  /\ width (before_plus_minus n y v) = width n + 2 + width y + 3 + width v.
Proof.
  intros Hn Hy. destruct (name_separator_plain n) as [Hsep Hlen].
  unfold before_colon, before_equals, before_plus_minus.
  split; [done|]. split.
  - rewrite width_app, width_app, (width_plain (name_separator n)) by
      (done || by apply even_dollars_plain). lia.
  - rewrite width_app, width_app, width_app, (width_app " ="), (width_app " "),
      (width_plain (name_separator n)) by (done || by apply even_dollars_plain).
    change (width " =") with 2. change (width " ") with 1. lia.
Qed.

End Widths.

(** * The aligner *)

Section Aligner.

Context {stack : NumericStack}.

Implicit Types (k : key) (c : columns) (l : list pyval) (r M : Z) (s t : string).
Local Arguments LaTeX_str_length : simpl never.

(** The three loops of a call that returns, the first under the names it
    already has. *)
Ltac loops_of Hcall Hm Hs Hc :=
  let rc' := fresh "rc" in
  let W' := fresh "W" in
  let Hm' := fresh "Hm" in
  pose proof Hcall as (rc' & W' & Hm' & Hs & Hc)%shifting_Ok;
  rewrite Hm in Hm'; injection Hm' as <- <-.

(** In a call that returns, where the strings of the names and signs
    columns have an even number of [$] and the rounded text of each number
    is no wider than its column, the string left in a cell has the width
    of its column. *)
Lemma padded_cell c r c' out rc W k row :
  shifting c r = (c', Ok out) ->
  measure c r = Ok (rc, W) ->
  (forall k l s, k = names \/ k = signs -> c k = Some l -> VStr s ∈ l ->
     even_dollars s = true) ->
  (forall k l x n, k = values \/ k = errors -> c k = Some l -> VNum x ∈ l ->
     LaTeX_str_length (VStr (py_round_str x r)) = Ok n -> n <= W k) ->
  (row < rc)%nat ->
  exists l' s, c' k = Some l' /\ l' !! row = Some (VStr s)
    /\ width s = W k + brackets k
    /\ (k = names \/ k = signs -> even_dollars s = true).
Proof.
  intros Hcall Hm Heven Hfit Hrow.
  destruct (shifting_cell _ _ _ _ _ _ k row Hcall Hm Hrow)
    as (l & l' & cell & s & Hl & Hl' & _ & _ & Hcell & Hs & Hrow').
  destruct (measure_Ok _ _ _ _ Hm) as (HW & _).
  destruct (HW k) as (rc1 & rc2 & Hcol).
  apply measure_column_Ok in Hcol as (_ & H0 & _ & _ & Hstr).
  exists l', s. split; [done|]. split; [done|].
  apply (shift_cell_width _ _ _ _ _ Hs H0).
  - intros s0 -> Hk. apply (Heven k l s0 Hk Hl).
    by eapply list_elem_of_lookup_2.
  - intros s0 ->. destruct (Hstr l s0 Hl) as (n & Hn & Hle).
    { by eapply list_elem_of_lookup_2. }
    rewrite estimate_width in Hn. by injection Hn as <-.
  - intros x -> Hk. apply (Hfit k l x _ Hk Hl).
    { by eapply list_elem_of_lookup_2. }
    apply estimate_width.
Qed.

Lemma forallb_elem {A} (p : A -> bool) (l : list A) x :
  forallb p l = true -> x ∈ l -> p x = true.
Proof.
  rewrite forallb_forall. intros H Hx. by apply H, list_elem_of_In.
Qed.

Lemma dollars_paired_spec c :
  dollars_paired c = true ->
  forall k l s, k = names \/ k = signs -> c k = Some l -> VStr s ∈ l ->
    even_dollars s = true.
Proof.
  unfold dollars_paired. intros [Hn Hy]%andb_true_iff k l s Hk Hl Hs.
  destruct Hk as [-> | ->]; rewrite Hl in *; simpl in *.
  - apply (forallb_elem _ _ _ Hn Hs).
  - apply (forallb_elem _ _ _ Hy Hs).
Qed.

Lemma numbers_fit_spec c r W :
  numbers_fit c r W = true ->
  forall k l x n, k = values \/ k = errors -> c k = Some l -> VNum x ∈ l ->
    LaTeX_str_length (VStr (py_round_str x r)) = Ok n -> n <= W k.
Proof.
  unfold numbers_fit. intros [Hv He]%andb_true_iff k l x n Hk Hl Hx Hn.
  destruct Hk as [-> | ->]; rewrite Hl in *; simpl in *.
  - pose proof (forallb_elem _ _ _ Hv Hx) as H. unfold fits in H.
    rewrite Hn in H. lia.
  - pose proof (forallb_elem _ _ _ He Hx) as H. unfold fits in H.
    rewrite Hn in H. lia.
Qed.

(** In a call that returns, where the strings of the names and signs
    columns have an even number of [$]: the string left in a cell of the
    names, signs or units column, or in place of a cell that was false,
    has the width of its column. *)
Lemma padded_text_cell c r c' out rc W k row :
  shifting c r = (c', Ok out) ->
  measure c r = Ok (rc, W) ->
  (forall k l s, k = names \/ k = signs -> c k = Some l -> VStr s ∈ l ->
     even_dollars s = true) ->
  (row < rc)%nat ->
  exists l l' cell s,
    c k = Some l /\ l !! row = Some cell
    /\ c' k = Some l' /\ l' !! row = Some (VStr s)
    /\ (k = names \/ k = signs \/ k = units \/ truthy cell = false ->
        width s = W k + brackets k)
    /\ (k = names \/ k = signs -> even_dollars s = true).
Proof.
  intros Hcall Hm Heven Hrow.
  destruct (shifting_cell _ _ _ _ _ _ k row Hcall Hm Hrow)
    as (l & l' & cell & s & Hl & Hl' & _ & _ & Hcell & Hs & Hrow').
  destruct (measure_Ok _ _ _ _ Hm) as (HW & _).
  destruct (HW k) as (rc1 & rc2 & Hcol).
  apply measure_column_Ok in Hcol as (_ & H0 & _ & _ & Hstr).
  exists l, l', cell, s. do 4 (split; [done|]).
  assert (Htext : (forall x, cell = VNum x -> k = values \/ k = errors -> False) ->
            width s = W k + brackets k
            /\ (k = names \/ k = signs -> even_dollars s = true)).
  { intros Hnum. apply (shift_cell_width _ _ _ _ _ Hs H0).
    - intros s0 -> Hk. apply (Heven k l s0 Hk Hl).
      by eapply list_elem_of_lookup_2.
    - intros s0 ->. destruct (Hstr l s0 Hl) as (n & Hn & Hle).
      { by eapply list_elem_of_lookup_2. }
      rewrite estimate_width in Hn. by injection Hn as <-.
    - intros x Hx Hk. destruct (Hnum x Hx Hk). }
  split.
  - intros [-> | [-> | [-> | Ht]]].
    + apply Htext. by intros x _ [|].
    + apply Htext. by intros x _ [|].
    + apply Htext. by intros x _ [|].
    + rewrite shift_cell_falsy in Hs by done. injection Hs as <-.
      rewrite width_spaces. destruct k; simpl; lia.
  - intros Hk. destruct Htext as [_ He]; [|by apply He].
    intros x _ Hk'. destruct Hk as [-> | ->], Hk'; done.
Qed.

(** C1 (amended).  In a call that returns, if the strings of the names and
    signs columns have an even number of [$], then every padded cell of
    the names column and of the units column has the estimated width
    [Max_Length] of its column, and every padded cell of the signs column
    that width plus 2; and the output is one line per row, made of the
    five padded cells of the row, in which the text before the colon and
    the text before the equals sign have estimated widths that do not
    depend on the row. *)
Theorem C1_alignment c r c' out rc W :
  shifting c r = (c', Ok out) ->
  measure c r = Ok (rc, W) ->
  dollars_paired c = true ->
  (forall k row, k = names \/ k = signs \/ k = units -> (row < rc)%nat ->
     exists l' s, c' k = Some l' /\ l' !! row = Some (VStr s)
       /\ LaTeX_str_length (VStr s) = Ok (W k + brackets k))
  /\ exists lines, out = Str.join newline lines /\ length lines = rc
       /\ forall row ln, lines !! row = Some ln ->
            exists n y v e u, ln = line n y v e u
              /\ part c' names row = Ok n /\ part c' signs row = Ok y
              /\ part c' values row = Ok v /\ part c' errors row = Ok e
              /\ part c' units row = Ok u
              /\ LaTeX_str_length (VStr (before_colon n)) = Ok (W names)
              /\ LaTeX_str_length (VStr (before_equals n y))
                 = Ok (W names + 2 + (W signs + 2)).
Proof.
  intros Hcall Hm Hpaired.
  pose proof (dollars_paired_spec _ Hpaired) as Heven. split.
  - intros k row Hk Hrow.
    destruct (padded_text_cell _ _ _ _ _ _ k row Hcall Hm Heven Hrow)
      as (l & l' & cell & s & _ & _ & Hl' & Hs & Hw & _).
    exists l', s. do 2 (split; [done|]).
    rewrite estimate_width, Hw; [done|tauto].
  - loops_of Hcall Hm Hloop Hc.
    apply concatenate_Ok in Hc as (lines & Hlines & ->).
    exists lines. split; [done|].
    pose proof (Forall2_length _ _ _ Hlines) as Hlen. rewrite length_seq in Hlen.
    split; [done|]. intros row ln Hln.
    destruct (Forall2_lookup_r _ _ _ _ _ Hlines Hln) as (row' & Hrow' & Hrow).
    apply lookup_seq in Hrow' as [-> Hlt]. simpl in Hrow.
    apply concat_row_Ok in Hrow
      as (n & y & v & e & u & Hn & Hy & Hv & Hpe & Hpu & ->).
    exists n, y, v, e, u. do 6 (split; [done|]).
    assert (Hcell : forall k s, k = names \/ k = signs -> part c' k row = Ok s ->
              width s = W k + brackets k /\ even_dollars s = true).
    { intros k s Hk (col & Hcol & Hs)%part_Ok.
      destruct (padded_text_cell _ _ _ _ _ _ k row Hcall Hm Heven Hlt)
        as (l & l' & cell & s' & _ & _ & Hl' & Hs' & Hw & He).
      rewrite Hcol in Hl'. injection Hl' as <-.
      rewrite Hs in Hs'. injection Hs' as <-.
      split; [apply Hw; tauto | by apply He]. }
    destruct (Hcell names n (or_introl eq_refl) Hn) as [Hwn Hen].
    destruct (Hcell signs y (or_intror eq_refl) Hy) as [Hwy Hey].
    destruct (offsets n y v) as (H1 & H2 & _); [done..|].
    rewrite !estimate_width, H1, H2, Hwn, Hwy. simpl.
    split_and!; f_equal; lia.
Qed.

(** C5 (amended).  A call that returns has overwritten the lists it was
    given: each list holds, row by row, the padded string of the cell that
    was there; a parameter bound to [None] is still bound to [None]. *)
Theorem C5_overwrites_in_place c r c' out rc W :
  shifting c r = (c', Ok out) ->
  measure c r = Ok (rc, W) ->
  forall k,
    match c k with
    | None => c' k = None
    | Some l =>
        exists l', c' k = Some l' /\ length l' = length l
          /\ forall row cell, l !! row = Some cell ->
               exists s, shift_cell k (W k) r cell = Ok s
                         /\ l' !! row = Some (VStr s)
    end.
Proof.
  intros Hcall Hm k.
  loops_of Hcall Hm Hs Hc.
  destruct (shift_loop_Ok _ _ _ _ _ _ NoDup_keys Hs) as [_ Hin].
  specialize (Hin k (elem_of_keys k)).
  destruct (measure_Ok _ _ _ _ Hm) as (HW & Hlen & _).
  specialize (Hlen k). destruct (HW k) as (rc1 & rc2 & Hcol).
  apply measure_column_Ok in Hcol as (_ & _ & Hne & _).
  destruct (c k) as [[|cell0 l]|] eqn:Hck; [done| |by rewrite Hin].
  simpl in Hlen.
  destruct (shifting_cell _ _ _ _ _ _ k 0%nat Hcall Hm ltac:(lia))
    as (l0 & l' & _ & _ & Hl0 & Hl' & Hlen0 & Hlen' & _).
  rewrite Hck in Hl0. injection Hl0 as <-.
  exists l'. split; [done|]. split; [congruence|].
  intros row cell Hcell. pose proof (lookup_lt_Some _ _ _ Hcell) as Hrow.
  destruct (shifting_cell _ _ _ _ _ _ k row Hcall Hm ltac:(lia))
    as (l1 & l1' & cell1 & s & Hl1 & Hl1' & _ & _ & Hcell1 & Hs1 & Hrow1).
  rewrite Hck in Hl1. injection Hl1 as <-.
  rewrite Hl' in Hl1'. injection Hl1' as <-.
  rewrite Hcell in Hcell1. injection Hcell1 as <-. eauto.
Qed.

(** Lines 140-142.  In a call that returns, a cell of the values or errors
    column that passes the guard of line 141 is a number, and the call
    leaves in its place the text [str(round(x, ROUNDING_COEF))] of the
    numeric stack after as many spaces as its estimated width is short of
    [Max_Length]; a cell that fails the guard becomes [Max_Length]
    spaces. *)
Lemma numeric_cell_padding c r c' out rc W k row :
  shifting c r = (c', Ok out) ->
  measure c r = Ok (rc, W) ->
  k = values \/ k = errors ->
  (row < rc)%nat ->
  exists l l' cell, c k = Some l /\ c' k = Some l' /\ l !! row = Some cell
    /\ if truthy cell then
         exists x n, cell = VNum x
           /\ LaTeX_str_length (VStr (py_round_str x r)) = Ok n
           /\ l' !! row = Some (VStr (Str.mul " " (W k - n) +:+ py_round_str x r))
       else l' !! row = Some (VStr (Str.mul " " (W k))).
Proof.
  intros Hcall Hm Hk Hrow.
  destruct (shifting_cell _ _ _ _ _ _ k row Hcall Hm Hrow)
    as (l & l' & cell & s & Hl & Hl' & _ & _ & Hcell & Hs & Hrow').
  exists l, l', cell. split_and!; try done.
  apply shift_cell_Ok in Hs as [[-> ->]|[-> H]].
  - destruct Hk as [-> | ->]; simpl; by rewrite Z.add_0_r in Hrow'.
  - destruct Hk as [-> | ->]; destruct H as (x & -> & ->);
      exists x, (width (py_round_str x r)); by rewrite estimate_width.
Qed.

Lemma is_blank_spaces n : Str.is_blank (Str.mul " " n) = true.
Proof.
  unfold Str.is_blank, Str.mul.
  induction (Z.to_nat n) as [|m IH]; [done|]. simpl. exact IH.
Qed.

(** C10.  In a call that returns, a cell that is false (the empty string
    and the number zero are) is treated as a [None] cell is: padding gives
    it what it gives [None], the call leaves [Max_Length] spaces in its
    place (plus 2 in the signs column), and a row whose name is false has
    two spaces where the others have [": "]. *)
Theorem C10_blank_by_truthiness c r c' out rc W k l row cell :
  shifting c r = (c', Ok out) ->
  measure c r = Ok (rc, W) ->
  c k = Some l -> l !! row = Some cell ->
  truthy cell = false ->
  truthy (VStr "") = false
  /\ shift_cell k (W k) r cell = shift_cell k (W k) r VNone
  /\ (exists l', c' k = Some l'
        /\ l' !! row = Some (VStr (Str.mul " " (W k + brackets k))))
  /\ (k = names ->
      exists ln rest, concat_row c' row = Ok ln
        /\ ln = Str.mul " " (W names) +:+ Str.mul " " 2 +:+ rest).
Proof.
  intros Hcall Hm Hl Hcell Ht. split; [done|].
  split; [by rewrite !shift_cell_falsy|].
  assert (Hrow : (row < rc)%nat).
  { destruct (measure_Ok _ _ _ _ Hm) as (_ & Hlen' & _).
    specialize (Hlen' k). rewrite Hl in Hlen'. simpl in Hlen'.
    apply lookup_lt_Some in Hcell. lia. }
  destruct (shifting_cell _ _ _ _ _ _ k row Hcall Hm Hrow)
    as (l1 & l' & cell1 & s & Hl1 & Hl' & _ & _ & Hcell1 & Hs & Hrow').
  rewrite Hl in Hl1. injection Hl1 as <-.
  rewrite Hcell in Hcell1. injection Hcell1 as <-.
  rewrite shift_cell_falsy in Hs by done. injection Hs as <-.
  split; [by eauto|]. intros ->.
  loops_of Hcall Hm Hloop Hc.
  apply concatenate_Ok in Hc as (lines & Hlines & _).
  assert (Hseq : seq 0 rc !! row = Some row) by (by apply lookup_seq).
  destruct (Forall2_lookup_l _ _ _ _ _ Hlines Hseq) as (ln & _ & Hln).
  exists ln. pose proof Hln as Hln'.
  apply concat_row_Ok in Hln' as (n & y & v & e & u & Hn & _ & _ & _ & _ & ->).
  apply part_Ok in Hn as (col & Hcol & Hn).
  rewrite Hl' in Hcol. injection Hcol as <-.
  rewrite Hrow' in Hn. injection Hn as <-.
  simpl brackets in *. rewrite Z.add_0_r in *.
  eexists. split; [exact Hln|].
  unfold line, name_separator. rewrite is_blank_spaces, sapp_nil_l, !sapp_assoc.
  reflexivity.
Qed.

(** ** Columns of more than one type *)

Lemma forallb_false_elem {A} (p : A -> bool) (l : list A) x :
  x ∈ l -> p x = false -> forallb p l = false.
Proof.
  intros Hx Hp. destruct (forallb p l) eqn:E; [|done].
  rewrite forallb_forall in E. apply list_elem_of_In in Hx.
  apply E in Hx. congruence.
Qed.

(** Line 127 is where a mixed column ends. *)
Lemma mixed_raises k l r rc :
  mixed l = true ->
  measure_column k (Some l) r rc = Raise (TypeError (OneType (one_type_message k))).
Proof.
  unfold mixed. rewrite andb_true_iff, !existsb_exists.
  intros [(v & Hv%list_elem_of_In & Hs) (v' & Hv'%list_elem_of_In & Hx)].
  destruct v as [|s| |]; try done. destruct v' as [| |x|]; try done.
  unfold measure_column.
  rewrite (forallb_false_elem is_str_or_none l (VNum x)) by done.
  rewrite (forallb_false_elem is_num_or_none l (VStr s)) by done.
  rewrite bool_decide_false; [done|]. intros ->. by apply elem_of_nil in Hv.
Qed.

Lemma measure_loop_raises pre k post c r rc0 W0 e :
  (forall k', k' ∈ pre -> measured k' (c k') r = true) ->
  (forall rc, measure_column k (c k) r rc = Raise e) ->
  measure_loop (pre ++ k :: post) c r rc0 W0 = Raise e.
Proof.
  intros Hpre Hk. revert rc0 W0.
  induction pre as [|k' pre IH]; intros rc0 W0; simpl.
  - by rewrite Hk.
  - assert (Hk' : measured k' (c k') r = true) by (apply Hpre; left).
    unfold measured in Hk'. rewrite (measure_column_rows _ _ _ _ rc0) in Hk'.
    destruct (measure_column k' (c k') r rc0) as [[rc1 w]|]; [|done]. simpl.
    apply IH. intros k'' Hk''. apply Hpre. by right.
Qed.

Lemma measure_loop_no_result ks k c r rc0 W0 :
  k ∈ ks ->
  (forall rc, returns (measure_column k (c k) r rc) = false) ->
  returns (measure_loop ks c r rc0 W0) = false.
Proof.
  intros Hin Hk. revert rc0 W0.
  induction ks as [|k' ks IH]; intros rc0 W0; [by apply elem_of_nil in Hin|].
  simpl. destruct (measure_column k' (c k') r rc0) as [[rc1 w]|] eqn:E; [|done].
  simpl. apply elem_of_cons in Hin as [->|Hin]; [|by apply IH].
  specialize (Hk rc0). by rewrite E in Hk.
Qed.

Lemma keys_earlier k : exists post, keys = earlier k ++ k :: post.
Proof. destruct k; eexists; reflexivity. Qed.

(** A call in which the list bound to [k] holds a string and a number
    returns nothing; if the first loop accepts the objects bound to the
    parameters before [k], the call raises the [TypeError] of line 127,
    whose message names [k], and has touched no list. *)
Lemma mixed_column_no_result c r k l :
  c k = Some l -> mixed l = true ->
  returns (snd (shifting c r)) = false
  /\ (earlier_measured c r k = true ->
      shifting c r = (c, Raise (TypeError (OneType (one_type_message k)))))
  /\ one_type_message k
     = "TypeError: ```" +:+ key_name k
         +:+ "``` argument must contain elements of one type".
Proof.
  intros Hl Hmixed. split; [|split; [|done]].
  - unfold shifting.
    pose proof (measure_loop_no_result keys k c r 0%nat (fun _ => 0) (elem_of_keys k)) as H.
    unfold measure. destruct (measure_loop keys c r 0 (fun _ => 0)) as [[rc W]|]; [|done].
    discriminate H. intros rc'. by rewrite Hl, mixed_raises.
  - intros Hpre. unfold shifting, measure.
    assert (forall k', k' ∈ earlier k -> measured k' (c k') r = true).
    { intros k' Hk'. apply (forallb_elem _ _ _ Hpre Hk'). }
    destruct (keys_earlier k) as [post ->].
    rewrite (measure_loop_raises _ _ _ _ _ _ _
               (TypeError (OneType (one_type_message k)))); [done|done|].
    intros rc'. by rewrite Hl, mixed_raises.
Qed.

(** ** Calls that cannot return *)

(** A parameter bound to [None] beside a list that is not empty: the third
    loop subscripts [None], if nothing has raised before. *)
Lemma absent_column_no_result c r k k' cell l :
  c k = None -> c k' = Some (cell :: l) ->
  returns (snd (shifting c r)) = false.
Proof.
  intros Hk Hk'. destruct (shifting c r) as [c' [out|e]] eqn:Hcall; [|done].
  exfalso. pose proof Hcall as (rc & W & Hm & _ & _)%shifting_Ok.
  destruct (measure_Ok _ _ _ _ Hm) as (_ & Hlen & _).
  specialize (Hlen k'). rewrite Hk' in Hlen. simpl in Hlen.
  destruct (shifting_cell _ _ _ _ _ _ k 0%nat Hcall Hm ltac:(lia))
    as (l0 & _ & _ & _ & Hl0 & _).
  congruence.
Qed.

(** A list that holds a number and [None]: the first loop takes it for a
    column of numbers and [np.round] raises on it. *)
Lemma none_among_numbers_no_result c r k l x :
  c k = Some l -> VNum x ∈ l -> VNone ∈ l ->
  returns (snd (shifting c r)) = false.
Proof.
  intros Hl Hx Hnone. unfold shifting.
  pose proof (measure_loop_no_result keys k c r 0%nat (fun _ => 0) (elem_of_keys k)) as H.
  unfold measure. destruct (measure_loop keys c r 0 (fun _ => 0)) as [[rc W]|]; [|done].
  discriminate H. intros rc'. rewrite Hl. unfold measure_column.
  rewrite (forallb_false_elem is_str_or_none l (VNum x)) by done.
  destruct (forallb is_num_or_none l).
  2: { case_bool_decide as Hnil; [|done]. subst l. by apply elem_of_nil in Hx. }
  unfold np_round_astype_str.
  destruct (mapM as_num l) as [xs|] eqn:Hxs; [|done].
  apply mapM_Some in Hxs. apply list_elem_of_lookup in Hnone as [i Hi].
  by destruct (Forall2_lookup_l _ _ _ _ _ Hxs Hi) as (y & _ & ?).
Qed.

(** ** Stacks that round alike *)

(** The width of a column of numbers covers the rounded text of each. *)
Lemma measure_column_numbers k l r rc rc' w x :
  rounds_alike ->
  measure_column k (Some l) r rc = Ok (rc', w) -> VNum x ∈ l ->
  width (py_round_str x r) <= w.
Proof.
  intros Halike Hcol Hx. unfold measure_column in Hcol.
  rewrite (forallb_false_elem is_str_or_none l (VNum x)) in Hcol by done.
  destruct (forallb is_num_or_none l).
  - apply bind_Ok in Hcol as (a & Ha & (w' & Hw & [= <- <-])%bind_Ok).
    unfold np_round_astype_str in Ha.
    destruct (mapM as_num l) as [xs|] eqn:Hxs; [|done].
    injection Ha as <-. rewrite Halike in Hw.
    apply widest_Ok in Hw as (_ & _ & Hall).
    apply mapM_Some in Hxs. apply list_elem_of_lookup in Hx as [i Hi].
    destruct (Forall2_lookup_l _ _ _ _ _ Hxs Hi) as (y & Hy & [= <-]).
    destruct (Hall (VStr (py_round_str x r))) as (n & Hn & Hle).
    { apply list_elem_of_fmap_2. apply list_elem_of_fmap.
      exists x. split; [done|]. by eapply list_elem_of_lookup_2. }
    rewrite estimate_width in Hn. by injection Hn as <-.
  - case_bool_decide as Hnil; [|done]. subst l. by apply elem_of_nil in Hx.
Qed.

(** Where numpy and Python round alike, the rounded text of each number
    is no wider than its column in every call that passes the first
    loop. *)
Lemma rounds_alike_numbers_fit c r rc W :
  rounds_alike -> measure c r = Ok (rc, W) -> numbers_fit c r W = true.
Proof.
  intros Halike Hm. destruct (measure_Ok _ _ _ _ Hm) as (HW & _).
  assert (H : forall k, forallb (fits r (W k)) (cells (c k)) = true).
  { intros k. apply forallb_forall. intros v Hv%list_elem_of_In.
    destruct v as [| |x|]; try done. unfold fits. rewrite estimate_width.
    apply Z.leb_le. destruct (HW k) as (rc1 & rc2 & Hcol).
    destruct (c k) as [l|]; [|by apply elem_of_nil in Hv].
    by eapply measure_column_numbers. }
  unfold numbers_fit. by rewrite !H.
Qed.

End Aligner.

(** * Calls on Python ints *)

(** Python ints round alike in numpy and in Python. *)
Lemma IntStack_rounds_alike : rounds_alike (stack := IntStack).
Proof. by intros xs r. Qed.

(** The output for the rows of the docstring. *)
Example three_rows_text :
  snd (shifting three_rows 3)
  = Ok ("Altitude: [Alt] =   988 " +:+ plus_minus +:+ "      1  cm" +:+ newline
        +:+ "Height  : [H]   =   326 " +:+ plus_minus +:+ "      1   m" +:+ newline
        +:+ "Width   : [Wid] = 52322 " +:+ plus_minus +:+ "  12001  km").
Proof. reflexivity. Qed.

Lemma C7_estimate_bounds_witness :
  even_dollars "A + $ \chi^{2} $ + B" = true
  /\ exists n, LaTeX_str_length (VStr "A + $ \chi^{2} $ + B") = Ok n
       /\ 0 <= n <= Str.len "A + $ \chi^{2} $ + B"
       /\ (Str.count "$" "A + $ \chi^{2} $ + B" = 0%nat
           -> n = Str.len "A + $ \chi^{2} $ + B").
Proof.
  split; [reflexivity|].
  apply (C7_estimate_bounds "A + $ \chi^{2} $ + B"). reflexivity.
Defined.

(** The name [a$] is padded to [a$   ], which the estimator measures at 1
    where the column is 4 wide: the call returns, and C1 as it is stated
    fails. *)
Lemma C1_counterexample :
  exists c' out rc W l' s,
    shifting open_inclusion 3 = (c', Ok out)
    /\ measure open_inclusion 3 = Ok (rc, W)
    /\ c' names = Some l' /\ l' !! 0%nat = Some (VStr s)
    /\ W names = 4
    /\ LaTeX_str_length (VStr s) = Ok 1
    /\ LaTeX_str_length (VStr s) <> Ok (W names + brackets names).
Proof. do 6 eexists. split_and!; try reflexivity. discriminate. Qed.

Lemma C1_alignment_witness :
  shifting three_rows 3
  = (fst (shifting three_rows 3), Ok (text_of (snd (shifting three_rows 3))))
  /\ measure three_rows 3 = Ok (Row_Count_of three_rows 3, Max_Length_of three_rows 3)
  /\ dollars_paired three_rows = true
  /\ forall k row, k = names \/ k = signs \/ k = units ->
       (row < Row_Count_of three_rows 3)%nat ->
       exists l' s, fst (shifting three_rows 3) k = Some l'
         /\ l' !! row = Some (VStr s)
         /\ LaTeX_str_length (VStr s)
            = Ok (Max_Length_of three_rows 3 k + brackets k).
Proof.
  split; [reflexivity|]. split; [reflexivity|]. split; [reflexivity|].
  apply (C1_alignment three_rows 3 (fst (shifting three_rows 3))
           (text_of (snd (shifting three_rows 3)))
           (Row_Count_of three_rows 3) (Max_Length_of three_rows 3));
    reflexivity.
Defined.

(** C3.  With [names] bound to [None] and one row in the other columns the
    call raises where line 150 subscripts [None]; with [names] bound to an
    empty list it raises where line 117 hands an array of size 0 to numpy. *)
Theorem C3_absent_column_raises :
  shifting names_none 3 = (fst (shifting names_none 3), Raise (TypeError Interpreter))
  /\ Max_Length_of names_none 3 names = 0
  /\ shifting names_empty 3 = (names_empty, Raise ValueError).
Proof. split_and!; reflexivity. Qed.

(** C5 as it is stated fails: the call on the rows of the docstring
    returns and leaves [[Alt]] where the caller had [Alt]. *)
Lemma C5_counterexample :
  returns (snd (shifting three_rows 3)) = true
  /\ three_rows signs = Some [VStr "Alt"; VStr "H"; VStr "Wid"]
  /\ fst (shifting three_rows 3) signs = Some [VStr "[Alt]"; VStr "[H]  "; VStr "[Wid]"]
  /\ fst (shifting three_rows 3) signs <> three_rows signs.
Proof. split_and!; try reflexivity. discriminate. Qed.

Lemma C5_overwrites_in_place_witness :
  shifting three_rows 3
  = (fst (shifting three_rows 3), Ok (text_of (snd (shifting three_rows 3))))
  /\ measure three_rows 3 = Ok (Row_Count_of three_rows 3, Max_Length_of three_rows 3)
  /\ exists l', fst (shifting three_rows 3) units = Some l'
       /\ length l' = 3%nat
       /\ forall row cell, [VStr "cm"; VStr "m"; VStr "km"] !! row = Some cell ->
            exists s, shift_cell units (Max_Length_of three_rows 3 units) 3 cell = Ok s
                      /\ l' !! row = Some (VStr s).
Proof.
  split; [reflexivity|]. split; [reflexivity|].
  exact (C5_overwrites_in_place three_rows 3 (fst (shifting three_rows 3))
           (text_of (snd (shifting three_rows 3)))
           (Row_Count_of three_rows 3) (Max_Length_of three_rows 3)
           eq_refl eq_refl units).
Defined.

(** C6.  With [values = [0, 15]] the call returns.  The first value is
    the number 0, not [None]; line 121 measures it as the text [0], beside
    [15] in a column 2 wide, and [str(round(0, 3))] is [0]; but the guard
    of line 141 is false for the number 0, and line 142 leaves two spaces
    in its place, not [0] after one space. *)
Theorem C6_zero_is_left_blank :
  returns (snd (shifting zero_value 3)) = true
  /\ zero_value values = Some [VNum 0; VNum 15]
  /\ np_round_astype_str [VNum 0; VNum 15] 3 = Ok ["0"; "15"]
  /\ Max_Length_of zero_value 3 values = 2
  /\ py_round_str 0 3 = "0"
  /\ truthy (VNum 0) = false
  /\ fst (shifting zero_value 3) values = Some [VStr "  "; VStr "15"]
  /\ fst (shifting zero_value 3) values <> Some [VStr " 0"; VStr "15"]
  /\ snd (shifting zero_value 3)
     = Ok ("a: [A] =    " +:+ plus_minus +:+ "  1  cm" +:+ newline
           +:+ "b: [B] = 15 " +:+ plus_minus +:+ "  2   m").
Proof. split_and!; try reflexivity. discriminate. Qed.

(** The second value of [zeros] passes the guard of line 141. *)
Example numeric_cell_padding_zeros :
  exists l l' cell, zeros values = Some l /\ fst (shifting zeros 3) values = Some l'
    /\ l !! 1%nat = Some cell
    /\ if truthy cell then
         exists x n, cell = VNum x
           /\ LaTeX_str_length (VStr (py_round_str x 3)) = Ok n
           /\ l' !! 1%nat
              = Some (VStr (Str.mul " " (Max_Length_of zeros 3 values - n)
                            +:+ py_round_str x 3))
       else l' !! 1%nat = Some (VStr (Str.mul " " (Max_Length_of zeros 3 values))).
Proof.
  apply (numeric_cell_padding zeros 3 (fst (shifting zeros 3))
           (text_of (snd (shifting zeros 3)))
           (Row_Count_of zeros 3) (Max_Length_of zeros 3) values 1%nat);
    [reflexivity|reflexivity|by left|vm_compute; lia].
Qed.

(** C9.  [units] holds a string and a number.  Behind an empty [names] the
    call raises the [ValueError] of numpy at line 117, and behind a
    [values] that holds [None] beside a number the [TypeError] of
    [np.round] at line 121: neither is the [TypeError] of line 127, and
    neither names [units].  Behind four columns that the first loop
    accepts, the same [units] raises the [TypeError] of line 127. *)
Theorem C9_mixed_units_not_reached :
  names_empty_units_mixed units = Some [VStr "cm"; VNum 1]
  /\ values_none_units_mixed units = Some [VStr "cm"; VNum 1]
  /\ mixed (stack := IntStack) [VStr "cm"; VNum 1] = true
  /\ names_empty_units_mixed names = Some []
  /\ shifting names_empty_units_mixed 3 = (names_empty_units_mixed, Raise ValueError)
  /\ values_none_units_mixed values = Some [VNum 1; VNone]
  /\ shifting values_none_units_mixed 3
     = (values_none_units_mixed, Raise (TypeError Interpreter))
  /\ shifting units_mixed 3
     = (units_mixed, Raise (TypeError (OneType
          "TypeError: ```units``` argument must contain elements of one type"))).
Proof. split_and!; reflexivity. Qed.

(** [units_mixed] by the general lemma. *)
Example mixed_column_no_result_units :
  shifting units_mixed 3
  = (units_mixed, Raise (TypeError (OneType (one_type_message units)))).
Proof.
  apply (mixed_column_no_result units_mixed 3 units
           [VStr "cm"; VNum (stack := IntStack) 1] eq_refl eq_refl).
  reflexivity.
Qed.

Lemma C10_blank_by_truthiness_witness :
  shifting zeros 3 = (fst (shifting zeros 3), Ok (text_of (snd (shifting zeros 3))))
  /\ measure zeros 3 = Ok (Row_Count_of zeros 3, Max_Length_of zeros 3)
  /\ zeros values = Some [VNum 0; VNum 15]
  /\ [VNum 0; VNum 15] !! 0%nat = Some (VNum 0)
  /\ truthy (VNum 0) = false
  /\ exists l', fst (shifting zeros 3) values = Some l'
       /\ l' !! 0%nat
          = Some (VStr (Str.mul " " (Max_Length_of zeros 3 values + brackets values))).
Proof.
  split; [reflexivity|]. split; [reflexivity|]. split; [reflexivity|].
  split; [reflexivity|]. split; [reflexivity|].
  apply (C10_blank_by_truthiness zeros 3 (fst (shifting zeros 3))
           (text_of (snd (shifting zeros 3)))
           (Row_Count_of zeros 3) (Max_Length_of zeros 3)
           values [VNum (stack := IntStack) 0; VNum (stack := IntStack) 15] 0%nat
           (VNum (stack := IntStack) 0));
    reflexivity.
Defined.

(** The first row of [zeros] has an empty name: three spaces, then two
    more where the second row has a colon and a space. *)
Example zeros_text :
  snd (shifting zeros 3)
  = Ok ("     [s] =    " +:+ plus_minus +:+ "  1  m" +:+ newline
        +:+ "abc:     = 15 " +:+ plus_minus +:+ "      ").
Proof. reflexivity. Qed.

(** C4.  The blank-row scenario of the specification raises: the values
    column holds a number and [None], the first loop takes it for a column
    of numbers and hands it to [np.round], whose arithmetic fails on
    [None]; no list has been touched and nothing is returned. *)
Theorem C4_blank_row_raises {stack : NumericStack} (value error : num) :
  shifting (blank_row value error) 3
  = (blank_row value error, Raise (TypeError Interpreter)).
Proof. reflexivity. Qed.

(** * More on the estimator *)

Section EstimatorMore.

Context {stack : NumericStack}.

Implicit Types (s t w seg : string) (segs : list string).
Local Arguments LaTeX_str_length : simpl never.
Local Arguments Re.letter : simpl never.

(** X1.  Whatever the string, closed inclusions or not, the estimate is at
    least 0 and at most the number of characters that are not [$]. *)
Theorem X1_delimiters_never_count s :
  exists n, LaTeX_str_length (VStr s) = Ok n
    /\ 0 <= n <= Str.len s - Z.of_nat (Str.count "$" s).
Proof.
  exists (width s). split; [apply estimate_width|].
  pose proof (alt_width_bounds false (Str.split "$" s)) as H.
  unfold width. rewrite (len_split "$" s). lia.
Qed.

(** X2.  After a text with an even number of [$] the estimator measures
    what follows on its own: the estimate of the whole is the sum. *)
Theorem X2_estimate_of_concatenation s t :
  even_dollars s = true ->
  exists n m, LaTeX_str_length (VStr s) = Ok n
    /\ LaTeX_str_length (VStr t) = Ok m
    /\ LaTeX_str_length (VStr (s +:+ t)) = Ok (n + m).
Proof.
  intros Heven. exists (width s), (width t).
  rewrite !estimate_width. by rewrite (width_app s t Heven).
Qed.

Lemma sub_class_app cls s t :
  Re.sub_class cls "" (s +:+ t) = Re.sub_class cls "" s +:+ Re.sub_class cls "" t.
Proof.
  induction s as [|c s IH]; [done|].
  rewrite sapp_cons. simpl. destruct (cls c).
  - by rewrite !sapp_nil_l.
  - by rewrite sapp_cons, IH.
Qed.

Lemma sub_class_spaces n : Re.sub_class Re.brace_or_space "" (Str.mul " " n) = "".
Proof.
  unfold Str.mul. induction (Z.to_nat n) as [|m IH]; [done|]. simpl. exact IH.
Qed.

(** Spaces at the end of an inclusion are deleted with the others. *)
Lemma inclusion_trailing_spaces seg n :
  inclusion (seg +:+ Str.mul " " n) = inclusion seg.
Proof.
  unfold inclusion. by rewrite sub_class_app, sub_class_spaces, sapp_nil_r.
Qed.

Lemma alt_width_app_segs_inside markup (l1 : list string) n :
  l1 <> [] -> Nat.odd (length l1) = markup ->
  alt_width markup (app_segs l1 [Str.mul " " n]) = alt_width markup l1.
Proof.
  revert markup. induction l1 as [|x l1 IH]; intros markup Hl1 Hodd; [done|].
  destruct l1 as [|x' l1].
  - simpl in Hodd. subst markup. simpl. by rewrite inclusion_trailing_spaces.
  - change (app_segs (x :: x' :: l1) ?l) with (x :: app_segs (x' :: l1) l).
    change (alt_width markup (x :: ?l)) with
      (Str.len (if markup then inclusion x else x) + alt_width (negb markup) l).
    rewrite IH; [done|done|].
    change (length (x :: x' :: l1)) with (S (length (x' :: l1))) in Hodd.
    rewrite Nat.odd_succ, <- Nat.negb_odd in Hodd.
    destruct (Nat.odd (length (x' :: l1))), markup; done.
Qed.

(** X3.  After an odd number of [$] the text is inside an inclusion that
    is not closed, and spaces added at its end are not counted. *)
Theorem X3_spaces_after_unclosed_inclusion s n :
  even_dollars s = false ->
  LaTeX_str_length (VStr (s +:+ Str.mul " " n)) = LaTeX_str_length (VStr s).
Proof.
  intros Hodd. rewrite !estimate_width. f_equal. unfold width.
  rewrite split_app, (split_without "$" (Str.mul " " n)) by apply count_spaces.
  apply alt_width_app_segs_inside.
  - by destruct (split_nonempty "$" s) as (h & q & ->).
  - rewrite length_split, Nat.odd_succ. exact Hodd.
Qed.

(** ** Commands *)

Lemma letters_cons c w :
  letters (String c w) = Re.letter c && letters w.
Proof. reflexivity. Qed.

Lemma letters_app w1 w2 : letters (w1 +:+ w2) = letters w1 && letters w2.
Proof.
  induction w1 as [|c w1 IH]; [done|].
  rewrite sapp_cons, !letters_cons, IH. by rewrite andb_assoc.
Qed.

Lemma sub_class_letters w :
  letters w = true -> Re.sub_class Re.brace_or_space "" w = w.
Proof.
  induction w as [|c w IH]; [done|].
  rewrite letters_cons. intros [Hc Hw]%andb_true_iff. simpl.
  assert (Re.brace_or_space c = false) as ->.
  { unfold Re.brace_or_space.
    destruct (Ascii.eqb_spec c "{") as [->|]; [done|].
    destruct (Ascii.eqb_spec c "}") as [->|]; [done|].
    by destruct (Ascii.eqb_spec c " ") as [->|]. }
  by rewrite IH.
Qed.

Lemma replace_letters (old : ascii) new w :
  Re.letter old = false -> letters w = true -> Str.replace old new w = w.
Proof.
  intros Hold. induction w as [|c w IH]; [done|].
  rewrite letters_cons. intros [Hc Hw]%andb_true_iff. simpl.
  destruct (Ascii.eqb_spec c old) as [->|]; [congruence|]. by rewrite IH.
Qed.

Lemma sub_command_letters repl w :
  letters w = true -> Re.sub_command_from true repl w = "".
Proof.
  induction w as [|c w IH]; [done|].
  rewrite letters_cons. intros [Hc Hw]%andb_true_iff. simpl.
  rewrite Hc. simpl. by apply IH.
Qed.

Lemma count_letters w : letters w = true -> Str.count "$" w = 0%nat.
Proof.
  induction w as [|c w IH]; [done|].
  rewrite letters_cons. intros [Hc Hw]%andb_true_iff.
  rewrite count_cons, IH by done.
  by destruct (Ascii.eqb_spec c "$") as [->|].
Qed.

(** A backslash and letters are one placeholder. *)
Lemma inclusion_command w :
  letters w = true -> w <> "" -> inclusion (String "\" w) = "_".
Proof.
  intros Hw Hne. unfold inclusion.
  change (Re.sub_class Re.brace_or_space "" (String "\" w))
    with (String "\" (Re.sub_class Re.brace_or_space "" w)).
  rewrite sub_class_letters by done.
  change (Str.replace "^" " " (String "\" w))
    with (String "\" (Str.replace "^" " " w)).
  rewrite (replace_letters "^") by done.
  change (Str.replace "_" " " (String "\" w))
    with (String "\" (Str.replace "_" " " w)).
  rewrite (replace_letters "_") by done.
  destruct w as [|c w]; [done|].
  pose proof Hw as Hw'. rewrite letters_cons in Hw'.
  apply andb_true_iff in Hw' as [Hc _].
  unfold Re.sub_command. rewrite sub_command_from_cons.
  change (Ascii.eqb "\" "\") with true. cbv iota. rewrite Hc.
  by rewrite sub_command_letters.
Qed.

(** The estimate of a string that is one inclusion. *)
Lemma estimate_one_inclusion seg :
  Str.count "$" seg = 0%nat ->
  LaTeX_str_length (VStr ("$" +:+ seg +:+ "$")) = Ok (Str.len (inclusion seg)).
Proof.
  intros Hseg. rewrite estimate_width. f_equal. unfold width.
  rewrite (split_app "$" "$"), (split_app "$" seg), (split_without "$" seg) by done.
  simpl. rewrite sapp_nil_l, sapp_nil_r, len_nil. lia.
Qed.

(** X4.  A command, a backslash and one or more letters, is counted as one
    glyph whatever its length; letters in braces right after it run into
    the command once the braces are deleted, and are not counted. *)
Theorem X4_command_is_one_glyph w1 w2 :
  letters w1 = true -> w1 <> "" -> letters w2 = true ->
  LaTeX_str_length (VStr ("$\" +:+ w1 +:+ "$")) = Ok 1
  /\ LaTeX_str_length (VStr ("$\" +:+ w1 +:+ "{" +:+ w2 +:+ "}$")) = Ok 1.
Proof.
  intros H1 Hne H2. split.
  - change ("$\" +:+ w1 +:+ "$") with ("$" +:+ String "\" w1 +:+ "$").
    rewrite estimate_one_inclusion.
    + by rewrite inclusion_command.
    + rewrite count_cons. by rewrite count_letters.
  - assert (Hshape : "$\" +:+ w1 +:+ "{" +:+ w2 +:+ "}$"
                     = "$" +:+ String "\" (w1 +:+ "{" +:+ w2 +:+ "}") +:+ "$").
    { rewrite (sapp_cons "\" _ "$"), !sapp_assoc. reflexivity. }
    rewrite Hshape.
    rewrite estimate_one_inclusion.
    + f_equal.
      assert (Hinc : inclusion (String "\" (w1 +:+ "{" +:+ w2 +:+ "}"))
                     = inclusion (String "\" (w1 +:+ w2))).
      { unfold inclusion. f_equal. f_equal. f_equal.
        change (Re.sub_class Re.brace_or_space "" (String "\" ?x))
          with (String "\" (Re.sub_class Re.brace_or_space "" x)).
        f_equal. rewrite !sub_class_app.
        change (Re.sub_class Re.brace_or_space "" "{") with "".
        change (Re.sub_class Re.brace_or_space "" "}") with "".
        by rewrite sapp_nil_l, sapp_nil_r. }
      rewrite Hinc, inclusion_command; [done| |].
      * by rewrite letters_app, H1, H2.
      * destruct w1; [done|]. by rewrite sapp_cons.
    + rewrite count_cons, !count_app, (count_letters w1), (count_letters w2) by done.
      reflexivity.
Qed.

End EstimatorMore.

(** * More on the aligner *)

Section AlignerMore.

Context {stack : NumericStack}.

Implicit Types (k : key) (c : columns) (l : list pyval) (r M : Z) (s t : string).
Local Arguments LaTeX_str_length : simpl never.

(** X5.  A call returns only on lists of one length.  Either the five
    parameters are bound to [None], and the output is the empty string, or
    they are bound to five lists of [Row_Count] elements each, with
    [Row_Count] at least 1, and the output has [Row_Count] lines. *)
Theorem X5_lists_of_one_length c r c' out rc W :
  shifting c r = (c', Ok out) ->
  measure c r = Ok (rc, W) ->
  (rc = 0%nat /\ out = "" /\ forall k, c k = None)
  \/ ((0 < rc)%nat
      /\ (forall k, exists l, c k = Some l /\ length l = rc)
      /\ exists lines, out = Str.join newline lines /\ length lines = rc).
Proof.
  intros Hcall Hm. destruct rc as [|rc].
  - left. split; [done|]. split.
    + apply shifting_Ok in Hcall as (rc' & W' & Hm' & _ & Hc).
      rewrite Hm in Hm'. injection Hm' as <- <-.
      by injection Hc as <-.
    + intros k. destruct (measure_Ok _ _ _ _ Hm) as (HW & Hlen & _).
      specialize (Hlen k). destruct (HW k) as (rc1 & rc2 & Hcol).
      apply measure_column_Ok in Hcol as (_ & _ & Hne & _).
      destruct (c k) as [[|cell l]|]; [done| |done]. simpl in Hlen. lia.
  - right. split; [lia|]. split.
    + intros k.
      destruct (shifting_cell _ _ _ _ _ _ k 0%nat Hcall Hm ltac:(lia))
        as (l & _ & _ & _ & Hl & _ & Hlen & _).
      eauto.
    + apply shifting_Ok in Hcall as (rc' & W' & Hm' & _ & Hc).
      rewrite Hm in Hm'. injection Hm' as <- <-.
      apply concatenate_Ok in Hc as (lines & Hlines & ->).
      exists lines. split; [done|].
      apply Forall2_length in Hlines. by rewrite length_seq in Hlines.
Qed.

(** X6.  In a call that returns, a cell of the names, signs or units
    column that is true is a string no wider than [Max_Length], and the
    call leaves in its place: in the names column the string and then
    spaces, in the signs column the string in brackets and then spaces, in
    the units column spaces and then the string, as many spaces as the
    estimate of the string is short of [Max_Length]. *)
Theorem X6_text_cells c r c' out rc W k row :
  shifting c r = (c', Ok out) ->
  measure c r = Ok (rc, W) ->
  k = names \/ k = signs \/ k = units ->
  (row < rc)%nat ->
  exists l l' cell, c k = Some l /\ c' k = Some l' /\ l !! row = Some cell
    /\ if truthy cell then
         exists s n, cell = VStr s
           /\ LaTeX_str_length (VStr s) = Ok n /\ 0 <= n <= W k
           /\ l' !! row
              = Some (VStr match k with
                           | names => s +:+ Str.mul " " (W k - n)
                           | signs => "[" +:+ s +:+ "]" +:+ Str.mul " " (W k - n)
                           | _ => Str.mul " " (W k - n) +:+ s
                           end)
       else l' !! row = Some (VStr (Str.mul " " (W k + brackets k))).
Proof.
  intros Hcall Hm Hk Hrow.
  destruct (shifting_cell _ _ _ _ _ _ k row Hcall Hm Hrow)
    as (l & l' & cell & s & Hl & Hl' & _ & _ & Hcell & Hs & Hrow').
  exists l, l', cell. split_and!; try done.
  destruct (measure_Ok _ _ _ _ Hm) as (HW & _).
  destruct (HW k) as (rc1 & rc2 & Hcol).
  apply measure_column_Ok in Hcol as (_ & _ & _ & _ & Hstr).
  apply shift_cell_Ok in Hs as [[-> ->]|[-> H]]; [done|].
  assert (Hin : forall s0, cell = VStr s0 ->
            LaTeX_str_length (VStr s0) = Ok (width s0) /\ 0 <= width s0 <= W k).
  { intros s0 ->. split; [apply estimate_width|]. split; [apply width_nonneg|].
    destruct (Hstr l s0 Hl) as (n & Hn & Hle).
    { by eapply list_elem_of_lookup_2. }
    rewrite estimate_width in Hn. by injection Hn as <-. }
  destruct Hk as [-> | [-> | ->]]; destruct H as (s0 & -> & ->);
    exists s0, (width s0); destruct (Hin s0 eq_refl); done.
Qed.

Lemma foldl_max_elem (x : Z) (t : list Z) : foldl Z.max x t ∈ x :: t.
Proof.
  revert x. induction t as [|z t IH]; intros x; simpl; [by left|].
  pose proof (IH (Z.max x z)) as [Hx|Ht]%elem_of_cons.
  - rewrite Hx. destruct (Z.max_spec x z) as [[_ ->]|[_ ->]];
      [right; left|left].
  - by do 2 right.
Qed.

(** X7.  After the first loop the [Max_Length] of a list of strings and
    [None] is the estimate of its widest cell: no cell is wider and one
    cell is just as wide; the [Max_Length] of a parameter bound to [None]
    is 0; and [Row_Count] is the length of the longest list. *)
Theorem X7_width_of_the_widest_cell c r rc W :
  measure c r = Ok (rc, W) ->
  (forall k l, c k = Some l -> forallb is_str_or_none l = true ->
     (forall v, v ∈ l -> exists n, LaTeX_str_length v = Ok n /\ n <= W k)
     /\ exists v, v ∈ l /\ LaTeX_str_length v = Ok (W k))
  /\ (forall k, c k = None -> W k = 0)
  /\ (forall k, (col_len (c k) <= rc)%nat)
  /\ (rc = 0%nat \/ exists k, rc = col_len (c k)).
Proof.
  intros Hm. destruct (measure_Ok _ _ _ _ Hm) as (HW & Hlen & Hrc).
  split_and!; try done.
  - intros k l Hl Hstr. destruct (HW k) as (rc1 & rc2 & Hcol).
    rewrite Hl in Hcol. unfold measure_column in Hcol. rewrite Hstr in Hcol.
    apply bind_Ok in Hcol as (w & Hw & [= _ <-]).
    pose proof Hw as (Hne & _ & Hall)%widest_Ok. split; [done|].
    apply bind_Ok in Hw as (ws & Hws & Hmax).
    unfold LaTeX_Str_Length, np_vectorize in Hws.
    destruct l as [|v0 l]; [done|]. apply mapM_Ok in Hws.
    destruct ws as [|x t]; [done|]. injection Hmax as <-.
    pose proof (foldl_max_elem x t) as [i Hi]%list_elem_of_lookup.
    destruct (Forall2_lookup_r _ _ _ _ _ Hws Hi) as (v & Hv & Hest).
    exists v. split; [by eapply list_elem_of_lookup_2|done].
  - intros k Hk. destruct (HW k) as (rc1 & rc2 & Hcol).
    apply measure_column_Ok in Hcol as (_ & _ & _ & H0 & _). by apply H0.
Qed.

(** The string that padding leaves is not empty when the column has a
    width. *)
Lemma shift_cell_nonempty k M r cell s :
  shift_cell k M r cell = Ok s -> 0 < M -> s <> "".
Proof.
  intros H HM Hs. subst s.
  apply shift_cell_Ok in H as [[_ H]|[_ H]].
  - assert (Hlen : Str.len (Str.mul " " (M + brackets k)) = Str.len "") by (by rewrite <- H).
    rewrite len_mul, len_nil in Hlen. destruct k; simpl in Hlen; lia.
  - assert (Hpad : forall t n, "" = Str.mul " " (M - n) +:+ t -> n = width t -> False).
    { intros t n Ht ->.
      assert (Hlen : Str.len "" = Str.len (Str.mul " " (M - width t) +:+ t))
        by (by rewrite <- Ht).
      rewrite len_app, len_mul, len_nil in Hlen.
      pose proof (len_nonneg t).
      assert (Str.len t = 0) as Ht0 by lia.
      assert (t = "") as -> by (destruct t; [done|rewrite len_cons in Ht0;
        pose proof (len_nonneg t); lia]).
      change (width "") with 0 in Hlen. lia. }
    destruct k.
    + destruct H as (s0 & _ & H).
      assert (Hlen : Str.len "" = Str.len (s0 +:+ Str.mul " " (M - width s0)))
        by (by rewrite <- H).
      rewrite len_app, len_mul, len_nil in Hlen.
      pose proof (len_nonneg s0).
      assert (s0 = "") as -> by (destruct s0; [done|rewrite len_cons in Hlen;
        pose proof (len_nonneg s0); lia]).
      change (width "") with 0 in Hlen. rewrite len_nil in Hlen. lia.
    + by destruct H as (s0 & _ & H).
    + destruct H as (x & _ & H). by eapply Hpad.
    + destruct H as (x & _ & H). by eapply Hpad.
    + destruct H as (s0 & _ & H). by eapply Hpad.
Qed.

(** X8.  A call cannot be repeated on the lists it has overwritten: once a
    call has returned at least one row with a values column of positive
    [Max_Length], the values list holds padded strings, and a second call
    on the same five lists, whatever its rounding, does not return. *)
Theorem X8_second_call_does_not_return c r c' out rc W r' :
  shifting c r = (c', Ok out) ->
  measure c r = Ok (rc, W) ->
  (0 < rc)%nat -> 0 < W values ->
  returns (snd (shifting c' r')) = false.
Proof.
  intros Hcall Hm Hrc HW.
  destruct (shifting c' r') as [c'' [out'|e]] eqn:Hcall'; [|done]. exfalso.
  destruct (shifting_cell _ _ _ _ _ _ values 0%nat Hcall Hm Hrc)
    as (l & l' & cell & s & Hl & Hl' & _ & Hlen' & Hcell & Hs & Hrow).
  pose proof Hcall' as (rc' & W' & Hm' & _ & _)%shifting_Ok.
  destruct (measure_Ok _ _ _ _ Hm') as (_ & Hlen & _).
  specialize (Hlen values). rewrite Hl' in Hlen. simpl in Hlen.
  destruct (shifting_cell _ _ _ _ _ _ values 0%nat Hcall' Hm' ltac:(lia))
    as (l1 & _ & cell1 & s1 & Hl1 & _ & _ & _ & Hcell1 & Hs1 & _).
  rewrite Hl' in Hl1. injection Hl1 as <-.
  rewrite Hrow in Hcell1. injection Hcell1 as <-.
  pose proof (shift_cell_nonempty _ _ _ _ _ Hs HW) as Hne.
  apply shift_cell_Ok in Hs1 as [[Ht _]|[_ (x & [=] & _)]].
  simpl in Ht. apply negb_false_iff, String.eqb_eq in Ht. done.
Qed.

End AlignerMore.

(** * Plain text *)

Section PlainText.

Context {stack : NumericStack}.

Implicit Types (k : key) (c : columns) (l : list pyval) (r M : Z) (s t : string).
Local Arguments LaTeX_str_length : simpl never.

Lemma plain_text_spec c r k l v :
  plain_text c r = true -> c k = Some l -> v ∈ l -> no_dollar r v = true.
Proof.
  unfold plain_text. intros Hplain Hl Hv.
  pose proof (forallb_elem _ _ _ Hplain (elem_of_keys k)) as Hk. simpl in Hk.
  rewrite Hl in Hk. simpl in Hk. apply (forallb_elem _ _ _ Hk Hv).
Qed.

(** Padding a text without [$] gives a text without [$]. *)
Lemma shift_cell_plain k M r cell s :
  shift_cell k M r cell = Ok s -> no_dollar r cell = true ->
  Str.count "$" s = 0%nat.
Proof.
  intros [[_ ->]|[_ H]]%shift_cell_Ok Hplain; [apply count_spaces|].
  destruct k.
  - destruct H as (s0 & -> & ->). simpl in Hplain. apply Nat.eqb_eq in Hplain.
    by rewrite count_app, count_spaces, Hplain.
  - destruct H as (s0 & -> & ->). simpl in Hplain. apply Nat.eqb_eq in Hplain.
    by rewrite !count_app, count_spaces, Hplain.
  - destruct H as (x & -> & ->). simpl in Hplain. apply Nat.eqb_eq in Hplain.
    by rewrite count_app, count_spaces, Hplain.
  - destruct H as (x & -> & ->). simpl in Hplain. apply Nat.eqb_eq in Hplain.
    by rewrite count_app, count_spaces, Hplain.
  - destruct H as (s0 & -> & ->). simpl in Hplain. apply Nat.eqb_eq in Hplain.
    by rewrite count_app, count_spaces, Hplain.
Qed.

Lemma len_line n y v e u :
  Str.len (line n y v e u)
  = Str.len n + Str.len y + Str.len v + Str.len e + Str.len u + 11.
Proof.
  unfold line. rewrite !len_app.
  rewrite (proj2 (name_separator_plain n)).
  change (Str.len "") with 0. change (Str.len " =") with 2.
  change (Str.len " ") with 1. change (Str.len plus_minus) with 1. lia.
Qed.

(** X9.  Without LaTeX inclusions the block is rectangular: in a call that
    returns, if no string and no rounded number holds a [$] and the rounded
    numbers are no wider than their columns, every line of the output has
    the same number of characters, the five [Max_Length] and 13 more for the
    brackets and the separators. *)
Theorem X9_plain_lines_have_one_length c r c' out rc W :
  shifting c r = (c', Ok out) ->
  measure c r = Ok (rc, W) ->
  plain_text c r = true ->
  numbers_fit c r W = true ->
  exists lines, out = Str.join newline lines /\ length lines = rc
    /\ forall ln, ln ∈ lines ->
         Str.len ln
         = W names + W signs + W values + W errors + W units + 13.
Proof.
  intros Hcall Hm Hplain Hnumbers.
  pose proof (numbers_fit_spec _ _ _ Hnumbers) as Hfit.
  assert (Heven : forall k l s, k = names \/ k = signs -> c k = Some l ->
            VStr s ∈ l -> even_dollars s = true).
  { intros k l s _ Hl Hs. pose proof (plain_text_spec _ _ _ _ _ Hplain Hl Hs) as H.
    simpl in H. apply Nat.eqb_eq in H. by apply even_dollars_plain. }
  assert (Hcell : forall k row s, (row < rc)%nat -> part c' k row = Ok s ->
            Str.len s = W k + brackets k).
  { intros k row s Hrow (col & Hcol & Hs)%part_Ok.
    destruct (padded_cell _ _ _ _ _ _ k row Hcall Hm Heven Hfit Hrow)
      as (l' & s' & Hl' & Hs' & Hw & _).
    rewrite Hcol in Hl'. injection Hl' as <-.
    rewrite Hs in Hs'. injection Hs' as <-.
    destruct (shifting_cell _ _ _ _ _ _ k row Hcall Hm Hrow)
      as (l0 & l1 & cell & s1 & Hl0 & Hl1 & _ & _ & Hcell & Hs1 & Hrow1).
    rewrite Hcol in Hl1. injection Hl1 as <-.
    rewrite Hs in Hrow1. injection Hrow1 as <-.
    rewrite <- Hw. symmetry. apply width_plain.
    apply (shift_cell_plain _ _ _ _ _ Hs1).
    apply (plain_text_spec _ _ _ _ _ Hplain Hl0).
    by eapply list_elem_of_lookup_2. }
  pose proof Hcall as (rc' & W' & Hm' & _ & Hc)%shifting_Ok.
  rewrite Hm in Hm'. injection Hm' as <- <-.
  apply concatenate_Ok in Hc as (lines & Hlines & ->).
  exists lines. split; [done|].
  pose proof (Forall2_length _ _ _ Hlines) as Hlen. rewrite length_seq in Hlen.
  split; [done|]. intros ln [i Hln]%list_elem_of_lookup.
  destruct (Forall2_lookup_r _ _ _ _ _ Hlines Hln) as (row & Hrow' & Hrow).
  apply lookup_seq in Hrow' as [-> Hlt]. simpl in Hrow.
  apply concat_row_Ok in Hrow
    as (n & y & v & e & u & Hn & Hy & Hv & Hpe & Hpu & ->).
  rewrite len_line.
  rewrite (Hcell names i n), (Hcell signs i y), (Hcell values i v),
    (Hcell errors i e), (Hcell units i u) by done.
  simpl. lia.
Qed.

End PlainText.

(** * Metrix_legend *)

Section MetrixLegend.

Import Metrix.

Context {Axes Artist Sample FontProperties Legend : Type}.
Context (legend : Axes -> Legend) (monospace : FontProperties).

Implicit Types (ax : option Axes) (handles : option (list Artist))
  (Y_obs Y_pred : list Sample) (chi RMSE flag : option (list bool))
  (tf pr : option FontProperties).

Lemma truth_true {A} (o : option (list A)) :
  truth o = true <-> exists x l, o = Some (x :: l).
Proof.
  split.
  - destruct o as [[|x l]|]; try done. eauto.
  - by intros (x & l & ->).
Qed.

(** Line 193 is the only way through lines 193-199. *)
Lemma flags_returns n (R2 : option (list bool)) chi RMSE x :
  flags n R2 chi RMSE = Returns x <->
  (truth R2 = false \/ truth chi = true \/ truth RMSE = true)
  /\ x = (Some (replicate n true), Some (replicate n true), Some (replicate n true)).
Proof.
  unfold flags.
  destruct (truth R2) eqn:H2, (truth chi) eqn:Hc, (truth RMSE) eqn:Hr; simpl;
    try (split; [intros [= <-]; auto|by intros [_ ->]]).
  split; [|by intros [[|[|]] _]].
  apply truth_true in H2 as (b & l & ->). simpl.
  destruct chi as [[|c lc]|]; [|done|done]. simpl.
  destruct RMSE as [lr|]; done.
Qed.

(** Lines 188-202, once the handles are known to be a list that is not
    empty. *)
Lemma checks_cons (x : Artist) (h : list Artist) Y_obs Y_pred
    (R2 : option (list bool)) chi RMSE tf pr :
  checks monospace (Some (x :: h)) Y_obs Y_pred R2 chi RMSE tf pr
  = if negb ((length (x :: h) =? length Y_obs)%nat
             && (length Y_obs =? length Y_pred)%nat) then
      Raises (Value (samples_message
                       [length (x :: h); length Y_obs; length Y_pred]))
    else
      and_then (flags (length (x :: h)) R2 chi RMSE) (fun '(R2, chi, RMSE) =>
      Returns {|
        Metrix.R2 := R2; Metrix.chi := chi; Metrix.RMSE := RMSE;
        title_fontproperties :=
          match tf with Some f => f | None => monospace end;
        prop := match pr with Some f => f | None => monospace end;
      |}).
Proof. reflexivity. Qed.

(** X10.  [Metrix_legend] returns exactly when the axes are not [None], the
    handles are a list that is not empty, as long as [Y_obs] and as
    [Y_pred], and [R2] is absent or empty or one of [chi] and [RMSE] is a
    list that is not empty; what it returns is then [ax.legend()]. *)
Theorem X10_legend_returns_iff ax handles Y_obs Y_pred
    (R2 : option (list bool)) chi RMSE tf pr g :
  Metrix_legend legend monospace ax handles Y_obs Y_pred R2 chi RMSE tf pr
  = Returns g
  <-> exists a h,
        ax = Some a /\ handles = Some h /\ h <> []
        /\ length h = length Y_obs /\ length Y_obs = length Y_pred
        /\ (truth R2 = false \/ truth chi = true \/ truth RMSE = true)
        /\ g = legend a.
Proof.
  unfold Metrix_legend. split.
  - destruct ax as [a|]; [|done].
    destruct handles as [[|x h]|]; try done. rewrite checks_cons.
    destruct (Nat.eqb_spec (length (x :: h)) (length Y_obs)) as [E1|]; [|done].
    destruct (Nat.eqb_spec (length Y_obs) (length Y_pred)) as [E2|]; [|done].
    cbn [andb negb].
    destruct (flags (length (x :: h)) R2 chi RMSE) as [[[f1 f2] f3]|] eqn:Hf;
      [|done].
    apply flags_returns in Hf as [Hf _]. intros [= <-].
    exists a, (x :: h). by split_and!.
  - intros (a & h & -> & -> & Hne & E1 & E2 & Hf & ->).
    destruct h as [|x h]; [done|]. rewrite checks_cons.
    rewrite E1, E2, !Nat.eqb_refl. cbn [andb negb].
    by rewrite (proj2 (flags_returns _ R2 chi RMSE _) (conj Hf eq_refl)).
Qed.

(** X11.  The flags that a caller passes are never kept: whenever the
    checks of lines 185-202 pass, [R2], [chi] and [RMSE] are each the list
    of as many [True] as there are handles. *)
Theorem X11_flags_are_all_true handles Y_obs Y_pred
    (R2 : option (list bool)) chi RMSE tf pr lv :
  checks monospace handles Y_obs Y_pred R2 chi RMSE tf pr = Returns lv ->
  exists h, handles = Some h /\ h <> []
    /\ Metrix.R2 lv = Some (replicate (length h) true)
    /\ Metrix.chi lv = Some (replicate (length h) true)
    /\ Metrix.RMSE lv = Some (replicate (length h) true).
Proof.
  destruct handles as [[|x h]|]; try done. rewrite checks_cons.
  destruct (negb _); [done|].
  destruct (flags (length (x :: h)) R2 chi RMSE) as [[[f1 f2] f3]|] eqn:Hf; [|done].
  apply flags_returns in Hf as [_ [= -> -> ->]]. intros [= <-].
  exists (x :: h). done.
Qed.

(** X12.  With [R2] a list that is not empty and neither [chi] nor [RMSE]
    one, the function raises once the first three checks have passed,
    whatever the length of [R2]: a [TypeError] for the length of [None]
    when [chi] or [RMSE] is [None], and the [ValueError] of line 199 when
    both are empty lists. *)
Theorem X12_flags_alone_raise (a : Axes) (x : Artist) (h : list Artist)
    Y_obs Y_pred (b : bool) (l : list bool) chi RMSE tf pr :
  length (x :: h) = length Y_obs -> length Y_obs = length Y_pred ->
  truth chi = false -> truth RMSE = false ->
  Metrix_legend legend monospace (Some a) (Some (x :: h)) Y_obs Y_pred
    (Some (b :: l)) chi RMSE tf pr
  = match chi, RMSE with
    | Some _, Some _ =>
        Raises (Value (flags_message [length (x :: h); length (b :: l); 0; 0]%nat))
    | _, _ => Raises NoLen
    end.
Proof.
  intros E1 E2 Hc Hr. unfold Metrix_legend. rewrite checks_cons.
  rewrite E1, E2, !Nat.eqb_refl. cbn [andb negb].
  unfold flags. rewrite Hc, Hr. cbn [truth negb orb].
  destruct chi as [[|c lc]|]; [|done|done].
  destruct RMSE as [[|c lr]|]; [|done|done].
  cbn [len and_then]. rewrite <- E2, <- E1. reflexivity.
Qed.

End MetrixLegend.

(** * The further properties, on examples *)

Lemma X2_estimate_of_concatenation_witness :
  even_dollars "$\chi^{2}$" = true
  /\ exists n m, LaTeX_str_length (VStr "$\chi^{2}$") = Ok n
       /\ LaTeX_str_length (VStr " = 3") = Ok m
       /\ LaTeX_str_length (VStr ("$\chi^{2}$" +:+ " = 3")) = Ok (n + m).
Proof.
  split; [reflexivity|].
  apply (X2_estimate_of_concatenation "$\chi^{2}$" " = 3"). reflexivity.
Defined.

Lemma X3_spaces_after_unclosed_inclusion_witness :
  even_dollars "a$b" = false
  /\ LaTeX_str_length (VStr ("a$b" +:+ Str.mul " " 3))
     = LaTeX_str_length (VStr "a$b").
Proof.
  split; [reflexivity|].
  apply (X3_spaces_after_unclosed_inclusion "a$b" 3). reflexivity.
Defined.

Lemma X4_command_is_one_glyph_witness :
  letters "frac" = true /\ "frac" <> "" /\ letters "ab" = true
  /\ LaTeX_str_length (VStr ("$\" +:+ "frac" +:+ "$")) = Ok 1
  /\ LaTeX_str_length (VStr ("$\" +:+ "frac" +:+ "{" +:+ "ab" +:+ "}$")) = Ok 1.
Proof.
  split; [reflexivity|]. split; [discriminate|]. split; [reflexivity|].
  apply (X4_command_is_one_glyph "frac" "ab"); [reflexivity|discriminate|reflexivity].
Defined.

Lemma X5_lists_of_one_length_witness :
  shifting three_rows 3
  = (fst (shifting three_rows 3), Ok (text_of (snd (shifting three_rows 3))))
  /\ measure three_rows 3 = Ok (3%nat, Max_Length_of three_rows 3)
  /\ ((3 = 0)%nat /\ text_of (snd (shifting three_rows 3)) = ""
      /\ (forall k, three_rows k = None)
      \/ (0 < 3)%nat
         /\ (forall k, exists l, three_rows k = Some l /\ length l = 3%nat)
         /\ exists lines, text_of (snd (shifting three_rows 3)) = Str.join newline lines
              /\ length lines = 3%nat).
Proof.
  split; [reflexivity|]. split; [reflexivity|].
  apply (X5_lists_of_one_length three_rows 3 (fst (shifting three_rows 3))
           (text_of (snd (shifting three_rows 3))) 3%nat (Max_Length_of three_rows 3));
    reflexivity.
Defined.

Lemma X6_text_cells_witness :
  shifting three_rows 3
  = (fst (shifting three_rows 3), Ok (text_of (snd (shifting three_rows 3))))
  /\ measure three_rows 3 = Ok (3%nat, Max_Length_of three_rows 3)
  /\ (signs = names \/ signs = signs \/ signs = units)
  /\ (1 < 3)%nat
  /\ exists l l' cell, three_rows signs = Some l
       /\ fst (shifting three_rows 3) signs = Some l'
       /\ l !! 1%nat = Some cell
       /\ if truthy cell then
            exists s n, cell = VStr s
              /\ LaTeX_str_length (VStr s) = Ok n
              /\ 0 <= n <= Max_Length_of three_rows 3 signs
              /\ l' !! 1%nat
                 = Some (VStr ("[" +:+ s +:+ "]"
                               +:+ Str.mul " " (Max_Length_of three_rows 3 signs - n)))
          else l' !! 1%nat
               = Some (VStr (Str.mul " " (Max_Length_of three_rows 3 signs
                                          + brackets signs))).
Proof.
  split; [reflexivity|]. split; [reflexivity|].
  split; [by right; left|]. split; [lia|].
  apply (X6_text_cells three_rows 3 (fst (shifting three_rows 3))
           (text_of (snd (shifting three_rows 3))) 3%nat (Max_Length_of three_rows 3)
           signs 1%nat); [reflexivity|reflexivity|by right; left|lia].
Defined.

Lemma X7_width_of_the_widest_cell_witness :
  measure three_rows 3 = Ok (3%nat, Max_Length_of three_rows 3)
  /\ Max_Length_of three_rows 3 names = 8
  /\ exists v, v ∈ [VStr "Altitude"; VStr "Height"; VStr "Width"]
       /\ LaTeX_str_length v = Ok (Max_Length_of three_rows 3 names).
Proof.
  split; [reflexivity|]. split; [reflexivity|].
  pose proof (X7_width_of_the_widest_cell three_rows 3 3%nat
                (Max_Length_of three_rows 3) eq_refl) as [H _].
  exact (proj2 (H names [VStr "Altitude"; VStr "Height"; VStr "Width"]
                  eq_refl eq_refl)).
Defined.

Lemma X8_second_call_does_not_return_witness :
  shifting three_rows 3
  = (fst (shifting three_rows 3), Ok (text_of (snd (shifting three_rows 3))))
  /\ measure three_rows 3 = Ok (3%nat, Max_Length_of three_rows 3)
  /\ (0 < 3)%nat /\ 0 < Max_Length_of three_rows 3 values
  /\ returns (snd (shifting (fst (shifting three_rows 3)) 3)) = false.
Proof.
  split; [reflexivity|]. split; [reflexivity|]. split; [lia|]. split; [reflexivity|].
  apply (X8_second_call_does_not_return three_rows 3 (fst (shifting three_rows 3))
           (text_of (snd (shifting three_rows 3))) 3%nat (Max_Length_of three_rows 3) 3);
    [reflexivity|reflexivity|lia|reflexivity].
Defined.

Lemma X9_plain_lines_have_one_length_witness :
  shifting three_rows 3
  = (fst (shifting three_rows 3), Ok (text_of (snd (shifting three_rows 3))))
  /\ measure three_rows 3 = Ok (3%nat, Max_Length_of three_rows 3)
  /\ plain_text three_rows 3 = true
  /\ numbers_fit three_rows 3 (Max_Length_of three_rows 3) = true
  /\ exists lines, text_of (snd (shifting three_rows 3)) = Str.join newline lines
       /\ length lines = 3%nat
       /\ forall ln, ln ∈ lines -> Str.len ln = 36.
Proof.
  split; [reflexivity|]. split; [reflexivity|].
  split; [reflexivity|]. split; [reflexivity|].
  apply (X9_plain_lines_have_one_length three_rows 3 (fst (shifting three_rows 3))
           (text_of (snd (shifting three_rows 3))) 3%nat (Max_Length_of three_rows 3));
    reflexivity.
Defined.

Lemma X11_flags_are_all_true_witness :
  Metrix.checks tt (Some [tt; tt]) [tt; tt] [tt; tt]
    (Some [false; true]) (Some [false; false]) None None None
  = Metrix.Returns {|
      Metrix.R2 := Some [true; true]; Metrix.chi := Some [true; true];
      Metrix.RMSE := Some [true; true];
      Metrix.title_fontproperties := tt; Metrix.prop := tt |}
  /\ exists h : list unit, Some [tt; tt] = Some h /\ h <> []
       /\ Some [true; true] = Some (replicate (length h) true)
       /\ Some [true; true] = Some (replicate (length h) true)
       /\ Some [true; true] = Some (replicate (length h) true).
Proof.
  split; [reflexivity|].
  exact (X11_flags_are_all_true tt (Some [tt; tt]) [tt; tt] [tt; tt]
           (Some [false; true]) (Some [false; false]) None None None _ eq_refl).
Defined.

Lemma X12_flags_alone_raise_witness :
  length [tt; tt] = length [tt; tt]
  /\ Metrix.truth (A := bool) None = false
  /\ Metrix.Metrix_legend (fun ax : unit => ax) tt (Some tt) (Some [tt; tt])
       [tt; tt] [tt; tt] (Some [true; false]) None None None None
     = Metrix.Raises Metrix.NoLen.
Proof.
  split; [reflexivity|]. split; [reflexivity|].
  exact (X12_flags_alone_raise (fun ax : unit => ax) tt tt tt [tt] [tt; tt] [tt; tt]
           true [false] None None None None eq_refl eq_refl eq_refl eq_refl).
Defined.
